(** * AWS SES e-mail sender: a shallow embedding of [aws_email_sender.py]

    The module is a thin client of two external collaborators, the SES
    service reached through a boto3 client and the file system.  The
    embedding keeps both as parameters of a section and models the Python
    code itself: the dictionaries it builds, the MIME object it assembles,
    its truthiness tests, its [try]/[except] blocks and what it prints. *)

From Stdlib Require Import QArith.
From stdpp Require Import base option list strings gmap.

Local Open Scope string_scope.
Local Open Scope list_scope.

(** ** Python values *)

(** Values that travel in request and response dictionaries. *)
#[local] Unset Elimination Schemes.
Inductive pyval :=
| VStr (s : string)
| VNum (q : Q)
| VDict (d : gmap string pyval).
#[local] Set Elimination Schemes.

(** The optional arguments default to [None]; [if x:] tests truthiness. *)
Definition str_truthy (x : option string) : bool :=
  match x with
  | None => false
  | Some s => negb (String.eqb s "")
  end.

Definition list_truthy {A} (x : option (list A)) : bool :=
  match x with
  | None | Some [] => false
  | Some (_ :: _) => true
  end.

(** [sep.join(l)] *)
Fixpoint join (sep : string) (l : list string) : string :=
  match l with
  | [] => ""
  | [s] => s
  | s :: rest => s +:+ sep +:+ join sep rest
  end.

(** ** Exceptions *)

(** The exception classes the handlers of the module tell apart.
    [BaseExceptionOnly] stands for the classes outside [Exception]
    (KeyboardInterrupt, SystemExit). *)
Inductive exn :=
| ClientError (msg : string)
| FileNotFoundError (msg : string)
| OtherException (cls msg : string)
| BaseExceptionOnly (cls msg : string).

(** [str(e)], as interpolated in the printed messages. *)
Definition exn_str (e : exn) : string :=
  match e with
  | ClientError m | FileNotFoundError m => m
  | OtherException _ m | BaseExceptionOnly _ m => m
  end.

Definition is_Exception (e : exn) : bool :=
  match e with
  | BaseExceptionOnly _ _ => false
  | _ => true
  end.

Inductive outcome (A : Type) :=
| Returned (a : A)
| Raised (e : exn).
Arguments Returned {A} a.
Arguments Raised {A} e.

(** ** MIME objects of the [email] package *)

(** [MIMEText(text, subtype, charset)] *)
Record MIMEText := mkMIMEText {
  text_payload : string;
  text_subtype : string;
  text_charset : string
}.

(** [MIMEMultipart(subtype)]: the headers of the message, in the order they
    were set, and the attached parts, in attachment order. *)
Record MIMEMultipart := mkMIMEMultipart {
  multi_subtype : string;
  multi_headers : list (string * string);
  multi_payload : list MIMEText
}.

(** The constructor itself sets the first two headers. *)
Definition new_MIMEMultipart (subtype : string) : MIMEMultipart :=
  {| multi_subtype := subtype;
     multi_headers := [("Content-Type", "multipart/" +:+ subtype);
                       ("MIME-Version", "1.0")];
     multi_payload := [] |}.

(** [msg[name] = value] appends a header. *)
Definition set_header (name value : string) (msg : MIMEMultipart) : MIMEMultipart :=
  {| multi_subtype := multi_subtype msg;
     multi_headers := multi_headers msg ++ [(name, value)];
     multi_payload := multi_payload msg |}.

(** [msg.attach(part)] appends a part. *)
Definition attach (part : MIMEText) (msg : MIMEMultipart) : MIMEMultipart :=
  {| multi_subtype := multi_subtype msg;
     multi_headers := multi_headers msg;
     multi_payload := multi_payload msg ++ [part] |}.

(** [msg[name]]: the first header of that name. *)
Fixpoint get_header (name : string) (hs : list (string * string)) : option string :=
  match hs with
  | [] => None
  | (n, v) :: rest => if String.eqb n name then Some v else get_header name rest
  end.

(** A header value of printable ASCII characters only (codes 32 to 126):
    such a value spans no line, so the serializer writes it as it is. *)
Fixpoint printable (value : string) : bool :=
  match value with
  | "" => true
  | String c rest =>
      Nat.leb 32 (Ascii.nat_of_ascii c) && Nat.leb (Ascii.nat_of_ascii c) 126
      && printable rest
  end.

(** ** The SES client and the sender object *)

(** [boto3.client(service, region_name=...)] *)
Record client := mkClient {
  client_service : string;
  client_region : string
}.

Definition boto3_client (service region : string) : client :=
  {| client_service := service; client_region := region |}.

(** The attributes [__init__] sets on an [AWSEmailSender]. *)
Record AWSEmailSender := mkSender {
  region_name : string;
  ses_client : client
}.

(** The four operations of the client the module calls, with their keyword
    arguments. *)
Inductive api_call :=
| SendEmail (Source : string) (Destination : gmap string (list string))
    (Message : gmap string pyval)
| SendRawEmail (Source : string) (Destinations : list string)
    (RawMessage : gmap string string)
| VerifyEmailIdentity (EmailAddress : string)
| GetSendQuota.

Abbreviation loc := nat.

(** ** Effects *)

Section Sender.

(** The state of the remote service and its behaviour: what a call made
    through a client answers, and the state it leaves. *)
Variable PS : Type.
Variable aws : client -> api_call -> PS -> outcome (gmap string pyval) * PS.

(** The file system: [open(path, 'r', encoding='utf-8')] and [file.read()]. *)
Variable file : Type.
Variable open_utf8 : string -> outcome file.
Variable file_read : file -> outcome string.

(** The serializer of the [email] package: the text [msg.as_string()]
    returns when it returns, and the exception with which it refuses a
    message instead (a header value that embeds a header line gives
    [HeaderParseError]). *)
Variable as_string : MIMEMultipart -> string.
Variable header_error : MIMEMultipart -> option exn.

(** [boto3.client(service, region_name=...)] raises for some regions (the
    empty string gives [ValueError]): the exception, if any. *)
Variable client_error : string -> string -> option exn.

(** What a run can observe or change: the lines printed, the live
    [AWSEmailSender] objects, the remote service, and the calls made to it. *)
Record world := mkWorld {
  stdout : list string;
  heap : gmap loc AWSEmailSender;
  remote : PS;
  requests : list (client * api_call)
}.

Definition M (A : Type) : Type := world -> outcome A * world.

#[global] Instance M_ret : MRet M := fun A a w => (Returned a, w).

#[global] Instance M_bind : MBind M := fun A B k m w =>
  match m w with
  | (Returned a, w') => k a w'
  | (Raised e, w') => (Raised e, w')
  end.

Definition lift {A} (o : outcome A) : M A := fun w => (o, w).

(** [try: body except ...: handler]; [handler e] is [None] when no
    [except] clause matches [e], which then propagates. *)
Definition try_except {A} (body : M A) (handler : exn -> option (M A)) : M A :=
  fun w =>
    match body w with
    | (Returned a, w') => (Returned a, w')
    | (Raised e, w') =>
        match handler e with
        | Some h => h w'
        | None => (Raised e, w')
        end
    end.

Definition print (line : string) : M unit := fun w =>
  (Returned tt,
   {| stdout := stdout w ++ [line]; heap := heap w;
      remote := remote w; requests := requests w |}).

(** [self.ses_client] *)
Definition get_ses_client (self : loc) : M client := fun w =>
  match heap w !! self with
  | Some obj => (Returned (ses_client obj), w)
  | None => (Raised (OtherException "AttributeError" "ses_client"), w)
  end.

(** A call of a client operation: recorded, then answered by the service. *)
Definition call (c : client) (req : api_call) : M (gmap string pyval) := fun w =>
  let '(o, ps) := aws c req (remote w) in
  (o, {| stdout := stdout w; heap := heap w;
         remote := ps; requests := requests w ++ [(c, req)] |}).

(** [d[k1][k2] = v] on a dictionary of dictionaries. *)
Definition setitem2 (d : gmap string pyval) (k1 k2 : string) (v : pyval)
  : outcome (gmap string pyval) :=
  match d !! k1 with
  | Some (VDict inner) => Returned (<[k1 := VDict (<[k2 := v]> inner)]> d)
  | Some _ => Raised (OtherException "TypeError" k1)
  | None => Raised (OtherException "KeyError" k1)
  end.

(** [{'Data': data, 'Charset': 'UTF-8'}] *)
Definition content (data : string) : pyval :=
  VDict (<["Data" := VStr data]> (<["Charset" := VStr "UTF-8"]> ∅)).

(** [msg.as_string()]: a message whose header values are all printable is
    serialized; for any other message [header_error] says whether the
    serializer raises. *)
Definition msg_as_string (msg : MIMEMultipart) : outcome string :=
  if forallb (fun h => printable h.2) (multi_headers msg)
  then Returned (as_string msg)
  else match header_error msg with
       | Some e => Raised e
       | None => Returned (as_string msg)
       end.

(** ** The methods of [AWSEmailSender] *)

Definition new_loc (h : gmap loc AWSEmailSender) : loc :=
  fresh (dom h).

(** The region a caller gets when it omits [region_name]. *)
Definition default_region : string := "us-east-1".

(** [boto3.client(service, region_name=region)]: the client is built for
    [us-east-1], the region the module itself uses; for any other region
    [client_error] says whether the call raises. *)
Definition new_client (service region : string) : outcome client :=
  if String.eqb region default_region
  then Returned (boto3_client service region)
  else match client_error service region with
       | Some e => Raised e
       | None => Returned (boto3_client service region)
       end.

(** [AWSEmailSender(region_name)]: a new object with the two attributes;
    when [boto3.client] raises, [__init__] raises and no object is left. *)
Definition AWSEmailSender_init (region : string) : M loc := fun w =>
  match new_client "ses" region with
  | Raised e => (Raised e, w)
  | Returned c =>
      let self := new_loc (heap w) in
      let obj := {| region_name := region; ses_client := c |} in
      (Returned self,
       {| stdout := stdout w; heap := <[self := obj]> (heap w);
          remote := remote w; requests := requests w |})
  end.

(** In the two sends an optional argument is read only under its own
    truthiness test, where it is not [None]: the [default] never applies. *)
Definition send_email (self : loc) (sender_email : string)
    (recipient_emails : list string) (subject html_content : string)
    (text_content : option string) (cc_emails bcc_emails : option (list string))
  : M (option (gmap string pyval)) :=
  try_except
    (let destination : gmap string (list string) :=
       <["ToAddresses" := recipient_emails]> ∅ in
     let destination :=
       if list_truthy cc_emails
       then <["CcAddresses" := default [] cc_emails]> destination
       else destination in
     let destination :=
       if list_truthy bcc_emails
       then <["BccAddresses" := default [] bcc_emails]> destination
       else destination in
     let message : gmap string pyval :=
       <["Subject" := content subject]>
         (<["Body" := VDict (<["Html" := content html_content]> ∅)]> ∅) in
     message ←
       (if str_truthy text_content
        then lift (setitem2 message "Body" "Text"
                     (content (default "" text_content)))
        else mret message);
     ses ← get_ses_client self;
     response ← call ses (SendEmail sender_email destination message);
     mret (Some response))
    (fun e =>
       match e with
       | ClientError _ =>
           Some (print ("Error sending email: " +:+ exn_str e);; mret None)
       | _ => None
       end).

Definition send_raw_email (self : loc) (sender_email : string)
    (recipient_emails : list string) (subject html_content : string)
    (text_content : option string)
  : M (option (gmap string pyval)) :=
  try_except
    (let msg := new_MIMEMultipart "alternative" in
     let msg := set_header "Subject" subject msg in
     let msg := set_header "From" sender_email msg in
     let msg := set_header "To" (join ", " recipient_emails) msg in
     let msg :=
       if str_truthy text_content
       then attach (mkMIMEText (default "" text_content) "plain" "utf-8") msg
       else msg in
     let msg := attach (mkMIMEText html_content "html" "utf-8") msg in
     ses ← get_ses_client self;
     data ← lift (msg_as_string msg);
     response ← call ses (SendRawEmail sender_email recipient_emails
                            (<["Data" := data]> ∅));
     mret (Some response))
    (fun e =>
       match e with
       | ClientError _ =>
           Some (print ("Error sending raw email: " +:+ exn_str e);; mret None)
       | _ => None
       end).

Definition verify_email_address (self : loc) (email_address : string) : M bool :=
  try_except
    (ses ← get_ses_client self;
     response ← call ses (VerifyEmailIdentity email_address);
     print ("Verification email sent to " +:+ email_address);;
     mret true)
    (fun e =>
       match e with
       | ClientError _ =>
           Some (print ("Error verifying email address: " +:+ exn_str e);;
                 mret false)
       | _ => None
       end).

Definition get_send_quota (self : loc) : M (option (gmap string pyval)) :=
  try_except
    (ses ← get_ses_client self;
     response ← call ses GetSendQuota;
     mret (Some response))
    (fun e =>
       match e with
       | ClientError _ =>
           Some (print ("Error getting send quota: " +:+ exn_str e);; mret None)
       | _ => None
       end).

(** ** The template loader *)

Definition load_html_template (template_path : string) : M (option string) :=
  try_except
    (f ← lift (open_utf8 template_path);
     s ← lift (file_read f);
     mret (Some s))
    (fun e =>
       match e with
       | FileNotFoundError _ =>
           Some (print ("Template file not found: " +:+ template_path);;
                 mret None)
       | _ =>
           if is_Exception e
           then Some (print ("Error reading template file: " +:+ exn_str e);;
                      mret None)
           else None
       end).

End Sender.

Arguments mkWorld {PS} _ _ _ _.
Arguments stdout {PS} _.
Arguments heap {PS} _.
Arguments remote {PS} _.
Arguments requests {PS} _.
Arguments lift {PS A} _ _.
Arguments try_except {PS A} _ _ _.
Arguments print {PS} _ _.
Arguments get_ses_client {PS} _ _.
Arguments call {PS} _ _ _ _.
Arguments msg_as_string _ _ _ : assert.
Arguments new_client _ _ _ : assert.
Arguments AWSEmailSender_init {PS} _ _ _.
Arguments send_email {PS} _ _ _ _ _ _ _ _ _ _.
Arguments send_raw_email {PS} _ _ _ _ _ _ _ _ _ _.
Arguments verify_email_address {PS} _ _ _ _.
Arguments get_send_quota {PS} _ _ _.
Arguments load_html_template {PS file} _ _ _ _.

(** ** Stand-ins for the collaborators, used to run the model *)

Module Stub.

Definition receipt : gmap string pyval := {[ "MessageId" := VStr "msg-1" ]}.

Definition quota : gmap string pyval :=
  <["Max24HourSend" := VNum 200]>
    (<["MaxSendRate" := VNum 1]> (<["SentLast24Hours" := VNum 3]> ∅)).

(** A service that accepts every request with the same receipt. *)
Definition accepting (c : client) (req : api_call) (ps : unit)
  : outcome (gmap string pyval) * unit :=
  (Returned receipt, ps).

(** A service that answers every request with the quota. *)
Definition quota_service (c : client) (req : api_call) (ps : unit)
  : outcome (gmap string pyval) * unit :=
  (Returned quota, ps).

(** A service that rejects every request. *)
Definition rejecting (c : client) (req : api_call) (ps : unit)
  : outcome (gmap string pyval) * unit :=
  (Raised (ClientError "MessageRejected"), ps).

(** A serializer that shows the subtype of each part. *)
Definition show_parts (msg : MIMEMultipart) : string :=
  join "," (text_subtype <$> multi_payload msg).

(** A serializer that shows the headers, then the parts. *)
Definition show_message (msg : MIMEMultipart) : string :=
  String.concat "|" ((fun h => h.1 +:+ ": " +:+ h.2) <$> multi_headers msg)
  +:+ "||"
  +:+ String.concat "|"
        ((fun part => text_subtype part +:+ "=" +:+ text_payload part)
           <$> multi_payload msg).

(** The serializer refuses every message it is asked about. *)
Definition refused (msg : MIMEMultipart) : option exn :=
  Some (OtherException "HeaderParseError"
          "header value appears to contain an embedded header").

(** The serializer and the client factory refuse nothing. *)
Definition no_header_error (msg : MIMEMultipart) : option exn := None.
Definition no_client_error (service region : string) : option exn := None.

(** The client factory refuses every region it is asked about. *)
Definition bad_region (service region : string) : option exn :=
  Some (OtherException "ValueError" "Invalid endpoint").

(** A file system with the single file [template.html]. *)
Definition open_utf8 (path : string) : outcome string :=
  if String.eqb path "template.html" then Returned "<p>Hi</p>"
  else Raised (FileNotFoundError path).

Definition file_read (f : string) : outcome string := Returned f.

Definition sender : AWSEmailSender :=
  {| region_name := "us-east-1"; ses_client := boto3_client "ses" "us-east-1" |}.

(** A world with one sender object, at address 0. *)
Definition w0 : world unit :=
  {| stdout := []; heap := {[ 0 := sender ]}; remote := tt; requests := [] |}.

End Stub.

(** ** The entry point *)

(** [d[k]] on a dictionary; a missing key raises [KeyError], whose [str] is
    the quoted key. *)
Definition getitem (d : gmap string pyval) (k : string) : outcome pyval :=
  match d !! k with
  | Some v => Returned v
  | None => Raised (OtherException "KeyError" ("'" +:+ k +:+ "'"))
  end.

(** [if d:] on a value that is [None] or a dictionary. *)
Definition dict_truthy (x : option (gmap string pyval)) : bool :=
  match x with
  | None => false
  | Some d => negb (Nat.eqb (size d) 0)
  end.

(** The line feed of the literals that contain one. *)
Definition nl : string := String (Ascii.ascii_of_nat 10) "".

Definition AWS_REGION : string := "us-east-1".
Definition SENDER_EMAIL : string := "your-verified-email@example.com".
Definition RECIPIENT_EMAILS : list string :=
  ["olgamikhalenka97@gmail.com"; "volha.mikhalenka@blackrock.com"].
Definition EMAIL_SUBJECT : string := "Preqin Updates - AWS SES Test".
Definition TEMPLATE_PATH : string := "template.html".

(** The triple-quoted literal of [main], line by line. *)
Definition text_content : string :=
  nl +:+ "    Preqin Updates" +:+ nl
  +:+ "    " +:+ nl
  +:+ "    This is a test email sent using AWS SES." +:+ nl
  +:+ "    " +:+ nl
  +:+ "    Please view this email in HTML format for the full experience." +:+ nl
  +:+ "    " +:+ nl
  +:+ "    Best regards," +:+ nl
  +:+ "    Preqin Team" +:+ nl
  +:+ "    ".

(** The lines the script prints after the first one when it catches an
    exception. *)
Definition guidance : list string :=
  [nl +:+ "To configure AWS credentials:";
   "1. Install AWS CLI: pip install awscli";
   "2. Configure credentials: aws configure";
   "3. Or set environment variables:";
   "   export AWS_ACCESS_KEY_ID=your_access_key";
   "   export AWS_SECRET_ACCESS_KEY=your_secret_key";
   "   export AWS_DEFAULT_REGION=us-east-1";
   nl +:+ "Make sure your sender email is verified in AWS SES console."].

Section Script.

Context {PS file : Type}.
Variable aws : client -> api_call -> PS -> outcome (gmap string pyval) * PS.
Variable as_string : MIMEMultipart -> string.
Variable header_error : MIMEMultipart -> option exn.
Variable client_error : string -> string -> option exn.
Variable open_utf8 : string -> outcome file.
Variable file_read : file -> outcome string.

(** [boto3.client('sts').get_caller_identity()]: the client made from the
    ambient configuration and its one call, either of which can raise. *)
Variable sts_get_caller_identity : PS -> outcome (gmap string pyval) * PS.

(** How an f-string renders a value that is not a string. *)
Variable format_value : pyval -> string.

(** [f"{v}"] *)
Definition fstr (v : pyval) : string :=
  match v with
  | VStr s => s
  | _ => format_value v
  end.

Definition caller_identity : M PS (gmap string pyval) := fun w =>
  let '(o, ps) := sts_get_caller_identity (remote w) in
  (o, {| stdout := stdout w; heap := heap w;
         remote := ps; requests := requests w |}).

(** [main()].  The template and the two responses are read only under their
    own truthiness tests, where they are not [None]. *)
Definition main : M PS unit :=
  email_sender ← AWSEmailSender_init client_error AWS_REGION;
  print "Loading HTML template...";;
  html_content ← load_html_template open_utf8 file_read TEMPLATE_PATH;
  if negb (str_truthy html_content)
  then print "Failed to load template. Exiting."
  else
    print "Template loaded successfully!";;
    print "Sending email via AWS SES...";;
    response ← send_raw_email aws as_string header_error email_sender SENDER_EMAIL
                 RECIPIENT_EMAILS EMAIL_SUBJECT (default "" html_content)
                 (Some text_content);
    if dict_truthy response
    then
      print "✅ Email sent successfully!";;
      message_id ← lift (getitem (default ∅ response) "MessageId");
      print ("Message ID: " +:+ fstr message_id);;
      quota_info ← get_send_quota aws email_sender;
      if dict_truthy quota_info
      then
        print (nl +:+ "Sending Quota Information:");;
        max_send ← lift (getitem (default ∅ quota_info) "Max24HourSend");
        print ("Max 24 Hour Send: " +:+ fstr max_send);;
        max_rate ← lift (getitem (default ∅ quota_info) "MaxSendRate");
        print ("Max Send Rate: " +:+ fstr max_rate +:+ " emails/second");;
        sent ← lift (getitem (default ∅ quota_info) "SentLast24Hours");
        print ("Sent Last 24 Hours: " +:+ fstr sent)
      else mret tt
    else print "❌ Failed to send email".

(** The [if __name__ == "__main__":] block. *)
Definition run_as_script : M PS unit :=
  try_except
    (identity ← caller_identity;
     account ← lift (getitem identity "Account");
     print ("AWS Account: " +:+ fstr account);;
     arn ← lift (getitem identity "Arn");
     print ("AWS User/Role: " +:+ fstr arn);;
     account ← lift (getitem identity "Account");
     print ("AWS Region: " +:+ fstr account);;
     main)
    (fun e =>
       if is_Exception e
       then Some (print ("AWS credentials not configured or invalid: "
                         +:+ exn_str e);;
                  foldr (fun line rest => print line;; rest) (mret tt) guidance)
       else None).

End Script.

(** What [main] sends: the message it has [send_raw_email] build from the
    template, and the request that carries it. *)
Definition main_message (html : string) : MIMEMultipart :=
  {| multi_subtype := "alternative";
     multi_headers :=
       [("Content-Type", "multipart/alternative"); ("MIME-Version", "1.0");
        ("Subject", EMAIL_SUBJECT); ("From", SENDER_EMAIL);
        ("To", "olgamikhalenka97@gmail.com, volha.mikhalenka@blackrock.com")];
     multi_payload :=
       [mkMIMEText text_content "plain" "utf-8"; mkMIMEText html "html" "utf-8"] |}.

Definition main_request (as_string : MIMEMultipart -> string) (html : string)
  : api_call :=
  SendRawEmail SENDER_EMAIL RECIPIENT_EMAILS
    (<["Data" := as_string (main_message html)]> ∅).

(** The client of the sender [main] constructs. *)
Definition main_client : client := boto3_client "ses" AWS_REGION.

(** What a raw send hands to the serializer, written out: the five headers
    in order, with the recipients joined by the standard library's
    [String.concat], and the parts by the text body. *)
Definition raw_message (sender : string) (recipients : list string)
    (subject html : string) (text : option string) : MIMEMultipart :=
  {| multi_subtype := "alternative";
     multi_headers :=
       [("Content-Type", "multipart/alternative"); ("MIME-Version", "1.0");
        ("Subject", subject); ("From", sender);
        ("To", String.concat ", " recipients)];
     multi_payload :=
       match text with
       | Some (String c t) =>
           [mkMIMEText (String c t) "plain" "utf-8"; mkMIMEText html "html" "utf-8"]
       | _ => [mkMIMEText html "html" "utf-8"]
       end |}.

(** ** A template on disk *)

(** The file system the loader meets when the template is a file:
    [open(path, 'r', encoding='utf-8')] finds the bytes of the file or
    raises, and [file.read()] decodes them as UTF-8 and, the file being
    open in text mode, turns every CR LF and every other CR into LF. *)
Module TextFile.

Definition CR : Ascii.ascii := Ascii.ascii_of_nat 13.
Definition LF : Ascii.ascii := Ascii.ascii_of_nat 10.

(** The ranges of the bytes that must follow a first byte, after the table
    of well-formed UTF-8 byte sequences; [None] for a byte that starts
    none. *)
Definition continuation (first : nat) : option (list (nat * nat)) :=
  if Nat.leb first 127 then Some []
  else if Nat.leb 194 first && Nat.leb first 223 then Some [(128, 191)]
  else if Nat.eqb first 224 then Some [(160, 191); (128, 191)]
  else if Nat.leb 225 first && Nat.leb first 236 then Some [(128, 191); (128, 191)]
  else if Nat.eqb first 237 then Some [(128, 159); (128, 191)]
  else if Nat.leb 238 first && Nat.leb first 239 then Some [(128, 191); (128, 191)]
  else if Nat.eqb first 240 then Some [(144, 191); (128, 191); (128, 191)]
  else if Nat.leb 241 first && Nat.leb first 243
       then Some [(128, 191); (128, 191); (128, 191)]
  else if Nat.eqb first 244 then Some [(128, 143); (128, 191); (128, 191)]
  else None.

(** Whether the bytes are well-formed UTF-8, given the ranges still owed
    by the sequence under way. *)
Fixpoint utf8_from (owed : list (nat * nat)) (bytes : string) : bool :=
  match bytes with
  | "" => match owed with [] => true | _ => false end
  | String c rest =>
      let b := Ascii.nat_of_ascii c in
      match owed with
      | (lo, hi) :: more => Nat.leb lo b && Nat.leb b hi && utf8_from more rest
      | [] =>
          match continuation b with
          | Some owed' => utf8_from owed' rest
          | None => false
          end
      end
  end.

Definition utf8_valid (bytes : string) : bool := utf8_from [] bytes.

(** The newline translation of text mode. *)
Fixpoint universal_newlines (text : string) : string :=
  match text with
  | "" => ""
  | String c rest =>
      if Ascii.eqb c CR
      then String LF
             match rest with
             | String c' rest' =>
                 if Ascii.eqb c' LF then universal_newlines rest'
                 else universal_newlines rest
             | "" => ""
             end
      else String c (universal_newlines rest)
  end.

(** The open file is known by its bytes. *)
Definition open_utf8 (disk : string -> outcome string) (path : string)
  : outcome string :=
  disk path.

Definition file_read (bytes : string) : outcome string :=
  if utf8_valid bytes then Returned (universal_newlines bytes)
  else Raised (OtherException "UnicodeDecodeError"
                 "'utf-8' codec can't decode bytes").

(** A disk with three files: one with a CR LF and a lone CR, one with a
    two-byte character and no CR, and one whose single byte is not UTF-8. *)
Definition dos_contents : string :=
  "a" +:+ String CR (String LF "b") +:+ String CR "c" +:+ String LF "".

Definition plain_contents : string :=
  "<p>caf" +:+ String (Ascii.ascii_of_nat 195) (String (Ascii.ascii_of_nat 169) "</p>")
  +:+ String LF "".

Definition disk (path : string) : outcome string :=
  if String.eqb path "dos.html" then Returned dos_contents
  else if String.eqb path "plain.html" then Returned plain_contents
  else if String.eqb path "latin1.html"
  then Returned (String (Ascii.ascii_of_nat 233) "")
  else Raised (FileNotFoundError path).

End TextFile.

(** Stand-ins for the collaborators of the entry point. *)
Module ScriptStub.

Definition identity : gmap string pyval :=
  <["Account" := VStr "123456789012"]>
    (<["Arn" := VStr "arn:aws:iam::123456789012:user/dev"]> ∅).

Definition sts_ok (ps : unit) : outcome (gmap string pyval) * unit :=
  (Returned identity, ps).

Definition sts_no_credentials (ps : unit) : outcome (gmap string pyval) * unit :=
  (Raised (OtherException "NoCredentialsError" "Unable to locate credentials"), ps).

(** A service that sends and reports the quota. *)
Definition ses (c : client) (req : api_call) (ps : unit)
  : outcome (gmap string pyval) * unit :=
  match req with
  | GetSendQuota => (Returned Stub.quota, ps)
  | _ => (Returned Stub.receipt, ps)
  end.

(** A service whose send response has no [MessageId]. *)
Definition ses_no_id (c : client) (req : api_call) (ps : unit)
  : outcome (gmap string pyval) * unit :=
  (Returned (<["ResponseMetadata" := VDict ∅]> ∅), ps).

(** A service that answers with the empty dictionary. *)
Definition ses_empty (c : client) (req : api_call) (ps : unit)
  : outcome (gmap string pyval) * unit :=
  (Returned ∅, ps).

(** A service that is cut off: not a [ClientError]. *)
Definition ses_unreachable (c : client) (req : api_call) (ps : unit)
  : outcome (gmap string pyval) * unit :=
  (Raised (OtherException "EndpointConnectionError" "Could not connect"), ps).

Definition format_value (v : pyval) : string :=
  match v with
  | VStr s => s
  | VNum q => "<number>"
  | VDict _ => "<dict>"
  end.

(** A service that sends but refuses the quota request. *)
Definition ses_no_quota (c : client) (req : api_call) (ps : unit)
  : outcome (gmap string pyval) * unit :=
  match req with
  | GetSendQuota => (Raised (ClientError "Throttling"), ps)
  | _ => (Returned Stub.receipt, ps)
  end.

(** A file system whose [template.html] is empty. *)
Definition open_empty (path : string) : outcome string := Returned "".

(** A file system interrupted while it opens the file. *)
Definition open_interrupted (path : string) : outcome string :=
  Raised (BaseExceptionOnly "KeyboardInterrupt" "").

(** A world with no sender object yet. *)
Definition w0 : world unit :=
  {| stdout := []; heap := ∅; remote := tt; requests := [] |}.

End ScriptStub.

(** ** Properties of the methods *)

Section Properties.

#[local] Set Default Proof Using "Type".

Context {PS : Type}.
Variable aws : client -> api_call -> PS -> outcome (gmap string pyval) * PS.

Implicit Types (w : world PS) (self : loc) (obj : AWSEmailSender).
Implicit Types (sender subject html : string) (recipients : list string).
Implicit Types (text : option string) (cc bcc : option (list string)).

(** Unfolds a method down to the reply of the service. *)
Ltac run_method Hself :=
  unfold send_email, send_raw_email, verify_email_address, get_send_quota,
    try_except, mbind, M_bind, mret, M_ret, get_ses_client, call, lift, print;
  cbn beta iota; rewrite ?Hself; cbn beta iota.

Lemma setitem2_body (a : pyval) (b : gmap string pyval) (v : pyval) :
  setitem2 (<["Subject" := a]> (<["Body" := VDict b]> ∅)) "Body" "Text" v
  = Returned (<["Subject" := a]> (<["Body" := VDict (<["Text" := v]> b)]> ∅)).
Proof.
  unfold setitem2.
  rewrite lookup_insert_ne by done. rewrite lookup_insert_eq.
  reflexivity.
Qed.

Lemma str_truthy_Some text :
  str_truthy text = true -> exists s, text = Some s /\ s <> "".
Proof.
  destruct text as [s|]; simpl; [|done].
  destruct (String.eqb_spec s ""); [done|]. eauto.
Qed.

Lemma list_truthy_spec {A} (x : option (list A)) :
  list_truthy x = true <-> exists l, x = Some l /\ l <> [].
Proof.
  destruct x as [[|a l]|]; simpl; split; try done.
  - intros (l & ? & ?). congruence.
  - eauto.
  - intros (l & ? & ?). congruence.
Qed.


(** C3.  In the structured send, the destination dictionary handed to the
    service has [ToAddresses] equal to the recipients, has a [CcAddresses]
    entry exactly when the cc argument is a non-empty list (the entry is then
    that list), and likewise [BccAddresses] for the bcc argument. *)
Theorem send_email_destination w self obj sender recipients subject html text cc bcc :
  heap w !! self = Some obj ->
  exists (dest : gmap string (list string)) (msg : gmap string pyval),
    requests (send_email aws self sender recipients subject html text cc bcc w).2
      = requests w ++ [(ses_client obj, SendEmail sender dest msg)]
    /\ dest !! "ToAddresses" = Some recipients
    /\ (forall l, dest !! "CcAddresses" = Some l <-> cc = Some l /\ l <> [])
    /\ (forall l, dest !! "BccAddresses" = Some l <-> bcc = Some l /\ l <> []).
Proof.
  intros Hself. unfold send_email.
  destruct (str_truthy text) eqn:Ht; rewrite ?setitem2_body;
    run_method Hself.
  all: eexists _, _; (split; [by destruct (aws _ _ _) as [[r|[]] ps]|]).
  all: destruct cc as [[|c cs]|], bcc as [[|b bs]|]; simpl.
  all: split; [by simplify_map_eq|].
  all: split; intros l; simplify_map_eq; intuition congruence.
Qed.

(** C4.  In the structured send, the message handed to the service has a
    [Body] whose [Html] entry is a dictionary with [html_content] as its
    [Data] and UTF-8 as its [Charset]; a [Text] entry occurs only when a text
    body was supplied, and then has that text as its [Data]. *)
Theorem send_email_body w self obj sender recipients subject html text cc bcc :
  heap w !! self = Some obj ->
  exists (dest : gmap string (list string)) (msg body part : gmap string pyval),
    requests (send_email aws self sender recipients subject html text cc bcc w).2
      = requests w ++ [(ses_client obj, SendEmail sender dest msg)]
    /\ msg !! "Body" = Some (VDict body)
    /\ body !! "Html" = Some (VDict part)
    /\ part !! "Data" = Some (VStr html)
    /\ part !! "Charset" = Some (VStr "UTF-8")
    /\ (forall t, body !! "Text" = Some t ->
          exists (s : string) (tpart : gmap string pyval),
            text = Some s /\ t = VDict tpart
            /\ tpart !! "Data" = Some (VStr s)
            /\ tpart !! "Charset" = Some (VStr "UTF-8")).
Proof.
  intros Hself. unfold send_email.
  destruct (str_truthy text) eqn:Ht; rewrite ?setitem2_body;
    run_method Hself.
  all: eexists _, _, _, _; (split; [by destruct (aws _ _ _) as [[r|[]] ps]|]).
  all: split; [by simplify_map_eq|].
  all: split; [by simplify_map_eq|].
  all: split; [by simplify_map_eq|].
  all: split; [by simplify_map_eq|].
  all: intros t Hlook; simplify_map_eq.
  apply str_truthy_Some in Ht as (s & -> & _).
  eexists _, _. split; [done|]. split; [done|]. by simplify_map_eq.
Qed.

(** C6.  [verify_email_address] makes the one verification request and
    returns [True] exactly when the service answers it with a response;
    when the service answers with a [ClientError] it prints the error and
    returns [False]. *)
Theorem verify_email_address_contract w self obj address :
  heap w !! self = Some obj ->
  let run := verify_email_address aws self address w in
  let reply := aws (ses_client obj) (VerifyEmailIdentity address) (remote w) in
  requests run.2 = requests w ++ [(ses_client obj, VerifyEmailIdentity address)]
  /\ (run.1 = Returned true <-> exists r, reply.1 = Returned r)
  /\ (forall m, reply.1 = Raised (ClientError m) ->
        run.1 = Returned false
        /\ stdout run.2 = stdout w ++ ["Error verifying email address: " +:+ m]).
Proof.
  intros Hself. run_method Hself.
  destruct (aws _ _ _) as [[r|[]] ps]; simpl.
  all: split; [done|]; split; [|by intros ? [= <-]].
  all: split; [try done; eauto|intros [? ?]; done].
Qed.

(** C8.  [get_send_quota] returns the response of the service to the quota
    request as it is, and prints nothing; when the service answers with a
    [ClientError] it prints the error and returns [None]. *)
Theorem get_send_quota_contract w self obj :
  heap w !! self = Some obj ->
  let run := get_send_quota aws self w in
  let reply := aws (ses_client obj) GetSendQuota (remote w) in
  (forall r, reply.1 = Returned r ->
     run.1 = Returned (Some r) /\ stdout run.2 = stdout w)
  /\ (forall m, reply.1 = Raised (ClientError m) ->
        run.1 = Returned None
        /\ stdout run.2 = stdout w ++ ["Error getting send quota: " +:+ m]).
Proof.
  intros Hself. run_method Hself.
  destruct (aws _ _ _) as [[r|[]] ps]; simpl.
  all: by split; intros ? [= <-].
Qed.

(** The raw send serializes with [as_string], unless [header_error]. *)
Variable as_string : MIMEMultipart -> string.
Variable header_error : MIMEMultipart -> option exn.

Lemma join_concat (sep : string) (l : list string) :
  join sep l = String.concat sep l.
Proof.
  induction l as [|s l IH]; [done|].
  destruct l as [|s' l]; [done|]. simpl in *. by rewrite IH.
Qed.

(** A raw send, by what the serializer and then the service answer. *)
Lemma send_raw_email_unfold w self obj sender recipients subject html text :
  heap w !! self = Some obj ->
  send_raw_email aws as_string header_error self sender recipients subject html text w
  = match msg_as_string as_string header_error
            (raw_message sender recipients subject html text) with
    | Returned data =>
        let req := SendRawEmail sender recipients (<["Data" := data]> ∅) in
        let sent out ps :=
          {| stdout := out; heap := heap w; remote := ps;
             requests := requests w ++ [(ses_client obj, req)] |} in
        match aws (ses_client obj) req (remote w) with
        | (Returned r, ps) => (Returned (Some r), sent (stdout w) ps)
        | (Raised (ClientError m), ps) =>
            (Returned None, sent (stdout w ++ ["Error sending raw email: " +:+ m]) ps)
        | (Raised e, ps) => (Raised e, sent (stdout w) ps)
        end
    | Raised (ClientError m) =>
        (Returned None,
         {| stdout := stdout w ++ ["Error sending raw email: " +:+ m];
            heap := heap w; remote := remote w; requests := requests w |})
    | Raised e => (Raised e, w)
    end.
Proof.
  intros Hself.
  assert (Hmsg : attach (mkMIMEText html "html" "utf-8")
            (if str_truthy text
             then attach (mkMIMEText (default "" text) "plain" "utf-8")
                    (set_header "To" (join ", " recipients)
                       (set_header "From" sender
                          (set_header "Subject" subject
                             (new_MIMEMultipart "alternative"))))
             else set_header "To" (join ", " recipients)
                    (set_header "From" sender
                       (set_header "Subject" subject
                          (new_MIMEMultipart "alternative"))))
          = raw_message sender recipients subject html text).
  { unfold raw_message. rewrite <- (join_concat ", " recipients).
    by destruct text as [[|c t]|]. }
  unfold send_raw_email. cbv zeta. rewrite Hmsg.
  run_method Hself.
  destruct (msg_as_string _ _ _) as [data|[]]; cbn beta iota; try done.
  by destruct (aws _ _ _) as [[r|[]] ps].
Qed.

(** C1, as the code has it.  In the raw send, the message given to the
    serializer is a multipart/alternative message whose parts are the HTML
    part alone when the text body is absent or the empty string, and the text
    part followed by the HTML part when the text body is a non-empty string.
    When the serializer returns, its text is the document of the one request;
    when it raises, no request is made. *)
Theorem send_raw_email_parts w self obj sender recipients subject html text :
  heap w !! self = Some obj ->
  let msg :=
    {| multi_subtype := "alternative";
       multi_headers :=
         [("Content-Type", "multipart/alternative"); ("MIME-Version", "1.0");
          ("Subject", subject); ("From", sender);
          ("To", String.concat ", " recipients)];
       multi_payload :=
         match text with
         | Some t =>
             if String.eqb t "" then [mkMIMEText html "html" "utf-8"]
             else [mkMIMEText t "plain" "utf-8"; mkMIMEText html "html" "utf-8"]
         | None => [mkMIMEText html "html" "utf-8"]
         end |} in
  let run :=
    send_raw_email aws as_string header_error self sender recipients subject
      html text w in
  match msg_as_string as_string header_error msg with
  | Returned data =>
      data = as_string msg
      /\ requests run.2
         = requests w ++ [(ses_client obj,
                           SendRawEmail sender recipients (<["Data" := data]> ∅))]
  | Raised e => requests run.2 = requests w
  end.
Proof.
  intros Hself msg run. subst run.
  erewrite send_raw_email_unfold by exact Hself.
  replace (raw_message sender recipients subject html text) with msg
    by (by destruct text as [[|c t]|]).
  destruct (msg_as_string _ _ msg) as [data|e] eqn:Hdata; cbn beta iota zeta.
  - split; [|by destruct (aws _ _ _) as [[r|[]] ps]].
    unfold msg_as_string in Hdata.
    destruct (forallb _ _); [congruence|].
    destruct (header_error msg); congruence.
  - by destruct e.
Qed.

(** C5.  In the raw send, the headers of the message given to the
    serializer end with a [To] header that is the recipients joined with a
    comma and a space, and when the serializer returns, the request carries
    its text with the recipients argument itself as the destination list. *)
Theorem send_raw_email_to_and_destinations w self obj sender recipients subject html text :
  heap w !! self = Some obj ->
  let msg := raw_message sender recipients subject html text in
  multi_headers msg
  = [("Content-Type", "multipart/alternative"); ("MIME-Version", "1.0");
     ("Subject", subject); ("From", sender);
     ("To", String.concat ", " recipients)]
  /\ forall data : string,
       msg_as_string as_string header_error msg = Returned data ->
       data = as_string msg
       /\ requests (send_raw_email aws as_string header_error self sender
                      recipients subject html text w).2
          = requests w ++ [(ses_client obj,
                            SendRawEmail sender recipients (<["Data" := data]> ∅))].
Proof.
  intros Hself msg. split; [done|]. intros data Hdata.
  erewrite send_raw_email_unfold by exact Hself.
  fold msg. rewrite Hdata. cbn beta iota zeta.
  split; [|by destruct (aws _ _ _) as [[r|[]] ps]].
  unfold msg_as_string in Hdata.
  destruct (forallb _ _); [congruence|].
  destruct (header_error msg); congruence.
Qed.

(** C2.  The structured send makes one request, and so does the raw send
    once its message is serialized; when the service answers the request with
    a [ClientError] the method prints the error and returns [None], and when
    the service answers with a response the method returns that response
    (so its [MessageId] entry is the one the service gave) and prints
    nothing.  A raw send whose message the serializer refuses asks the
    service nothing. *)
Theorem send_reply_contract w self obj sender recipients subject html text cc bcc :
  heap w !! self = Some obj ->
  (exists req,
     let run := send_email aws self sender recipients subject html text cc bcc w in
     requests run.2 = requests w ++ [(ses_client obj, req)]
     /\ (forall m ps, aws (ses_client obj) req (remote w) = (Raised (ClientError m), ps) ->
           run.1 = Returned None
           /\ stdout run.2 = stdout w ++ ["Error sending email: " +:+ m])
     /\ (forall r ps, aws (ses_client obj) req (remote w) = (Returned r, ps) ->
           run.1 = Returned (Some r) /\ stdout run.2 = stdout w))
  /\
  (let run :=
     send_raw_email aws as_string header_error self sender recipients subject
       html text w in
   (forall data,
      msg_as_string as_string header_error
        (raw_message sender recipients subject html text) = Returned data ->
      let req := SendRawEmail sender recipients (<["Data" := data]> ∅) in
      requests run.2 = requests w ++ [(ses_client obj, req)]
      /\ (forall m ps, aws (ses_client obj) req (remote w) = (Raised (ClientError m), ps) ->
            run.1 = Returned None
            /\ stdout run.2 = stdout w ++ ["Error sending raw email: " +:+ m])
      /\ (forall r ps, aws (ses_client obj) req (remote w) = (Returned r, ps) ->
            run.1 = Returned (Some r) /\ stdout run.2 = stdout w))
   /\ (forall e,
         msg_as_string as_string header_error
           (raw_message sender recipients subject html text) = Raised e ->
         requests run.2 = requests w /\ remote run.2 = remote w)).
Proof.
  intros Hself. split.
  - unfold send_email.
    destruct (str_truthy text) eqn:Ht; rewrite ?setitem2_body;
      run_method Hself.
    all: eexists; (split; [by destruct (aws _ _ _) as [[r|[]] ps]|]).
    all: by split; intros ? ps ->.
  - cbv zeta. erewrite send_raw_email_unfold by exact Hself. split.
    + intros data ->. cbn beta iota zeta.
      split; [by destruct (aws _ _ _) as [[r|[]] ps]|].
      by split; intros ? ps ->.
    + intros e ->. by destruct e.
Qed.

(** C9.  No method changes the sender objects: after a call of any of the
    four methods, returning or raising, every object has the region and the
    client it had before. *)
Theorem methods_preserve_heap w self sender recipients subject html text cc bcc address :
  heap (send_email aws self sender recipients subject html text cc bcc w).2 = heap w
  /\ heap (send_raw_email aws as_string header_error self sender recipients
              subject html text w).2 = heap w
  /\ heap (verify_email_address aws self address w).2 = heap w
  /\ heap (get_send_quota aws self w).2 = heap w.
Proof.
  split; [|split; [|split]].
  - unfold send_email.
    destruct (str_truthy text); rewrite ?setitem2_body.
    all: run_method I; destruct (heap w !! self); [|done].
    all: by destruct (aws _ _ _) as [[r|[]] ps].
  - run_method I. destruct (heap w !! self); [|done]. cbn beta iota.
    destruct (msg_as_string _ _ _) as [data|[]]; cbn beta iota; try done.
    by destruct (aws _ _ _) as [[r|[]] ps].
  - run_method I. destruct (heap w !! self); [|done].
    by destruct (aws _ _ _) as [[r|[]] ps].
  - run_method I. destruct (heap w !! self); [|done].
    by destruct (aws _ _ _) as [[r|[]] ps].
Qed.

(** C10.  An empty text body is handled as an absent one in both sends, and
    an empty cc or bcc list as an absent one in the structured send: the
    calls run identically. *)
Theorem falsy_arguments_as_absent w self sender recipients subject html text cc bcc :
  send_email aws self sender recipients subject html (Some "") cc bcc w
    = send_email aws self sender recipients subject html None cc bcc w
  /\ send_email aws self sender recipients subject html text (Some []) bcc w
    = send_email aws self sender recipients subject html text None bcc w
  /\ send_email aws self sender recipients subject html text cc (Some []) w
    = send_email aws self sender recipients subject html text cc None w
  /\ send_raw_email aws as_string header_error self sender recipients subject
       html (Some "") w
    = send_raw_email aws as_string header_error self sender recipients subject
        html None w.
Proof. repeat split; reflexivity. Qed.

(** The loader reads through the file system. *)
Context {file : Type}.
Variable open_utf8 : string -> outcome file.
Variable file_read : file -> outcome string.

(** The loader by what the file system answers: it returns the text read
    when the file opens and reads; prints the not-found message and returns
    [None] when opening raises [FileNotFoundError]; and prints one line and
    returns [None] when opening or reading raises any other [Exception]. *)
Lemma load_html_template_by_answer w (template_path : string) :
  let run := load_html_template open_utf8 file_read template_path w in
  (forall f s, open_utf8 template_path = Returned f -> file_read f = Returned s ->
     run = (Returned (Some s), w))
  /\ (forall m, open_utf8 template_path = Raised (FileNotFoundError m) ->
        run.1 = Returned None
        /\ stdout run.2 = stdout w ++ ["Template file not found: " +:+ template_path])
  /\ (forall e, is_Exception e = true ->
        open_utf8 template_path = Raised e
        \/ (exists f, open_utf8 template_path = Returned f /\ file_read f = Raised e) ->
        run.1 = Returned None /\ exists line, stdout run.2 = stdout w ++ [line]).
Proof.
  unfold load_html_template.
  unfold try_except, mbind, M_bind, mret, M_ret, lift, print. cbn beta iota.
  split; [|split].
  - by intros f s -> ->.
  - by intros m ->.
  - intros e He [->|(f & -> & ->)]; destruct e; simpl in *; eauto; done.
Qed.

End Properties.

(** ** The loader on a template on disk *)

Section TemplateOnDisk.

Import TextFile.

Context {PS : Type}.
Variable disk : string -> outcome string.

Lemma universal_newlines_no_CR (text : string) :
  ~ In CR (String.list_ascii_of_string text) -> universal_newlines text = text.
Proof.
  induction text as [|c rest IH]; [done|]. simpl. intros Hno.
  destruct (Ascii.eqb_spec c CR) as [->|_]; [tauto|].
  rewrite IH; [done|tauto].
Qed.

Lemma universal_newlines_leaves_no_CR (text : string) :
  ~ In CR (String.list_ascii_of_string (universal_newlines text)).
Proof.
  assert (Hall : forall n s, String.length s <= n ->
                   ~ In CR (String.list_ascii_of_string (universal_newlines s))).
  { induction n as [|n IH]; intros [|c rest] Hlen; simpl in *;
      [tauto|lia|tauto|].
    destruct (Ascii.eqb_spec c CR) as [->|Hc]; simpl.
    - intros [Habs|Hin]; [discriminate Habs|]. revert Hin.
      destruct rest as [|c' rest']; [simpl; tauto|].
      destruct (Ascii.eqb c' LF); apply IH; simpl in *; lia.
    - intros [Habs|Hin]; [congruence|]. revert Hin. apply IH. lia. }
  by apply (Hall (String.length text)).
Qed.

(** C7, as the code has it.  For a template on disk the loader returns the
    text of a well-formed UTF-8 file with every CR LF and every other CR
    turned into LF -- the exact contents when the file has no CR; it prints
    the not-found message and returns [None] when the file is absent, and
    prints one line and returns [None] when opening raises another
    [Exception] or the bytes are not well-formed UTF-8. *)
Theorem load_html_template_text_mode (w : world PS) (template_path : string) :
  let run := load_html_template (open_utf8 disk) file_read template_path w in
  (forall bytes, disk template_path = Returned bytes -> utf8_valid bytes = true ->
     run = (Returned (Some (universal_newlines bytes)), w)
     /\ ~ In CR (String.list_ascii_of_string (universal_newlines bytes))
     /\ (~ In CR (String.list_ascii_of_string bytes) -> run = (Returned (Some bytes), w)))
  /\ (forall m, disk template_path = Raised (FileNotFoundError m) ->
        run.1 = Returned None
        /\ stdout run.2 = stdout w ++ ["Template file not found: " +:+ template_path])
  /\ (forall e, is_Exception e = true -> disk template_path = Raised e ->
        run.1 = Returned None /\ exists line, stdout run.2 = stdout w ++ [line])
  /\ (forall bytes, disk template_path = Returned bytes -> utf8_valid bytes = false ->
        run.1 = Returned None /\ exists line, stdout run.2 = stdout w ++ [line]).
Proof.
  unfold load_html_template, open_utf8, file_read.
  unfold try_except, mbind, M_bind, mret, M_ret, lift, print. cbn beta iota zeta.
  split; [|split; [|split]].
  - intros bytes -> Hvalid. rewrite Hvalid. cbn beta iota.
    split; [done|]. split; [apply universal_newlines_leaves_no_CR|].
    intros Hno. by rewrite (universal_newlines_no_CR _ Hno).
  - by intros m ->.
  - intros e He ->. destruct e; simpl in *; eauto; done.
  - intros bytes -> Hvalid. rewrite Hvalid. cbn. eauto.
Qed.

End TemplateOnDisk.

(** ** The properties on the stand-in collaborators *)

Lemma send_email_destination_witness :
  heap Stub.w0 !! 0 = Some Stub.sender /\
  exists (dest : gmap string (list string)) (msg : gmap string pyval),
    requests (send_email Stub.accepting 0 "a@x.com" ["b@x.com"] "Hi" "<p>Hi</p>"
                None (Some ["c@x.com"]) (Some []) Stub.w0).2
      = requests Stub.w0 ++ [(ses_client Stub.sender, SendEmail "a@x.com" dest msg)]
    /\ dest !! "ToAddresses" = Some ["b@x.com"]
    /\ (forall l, dest !! "CcAddresses" = Some l <-> Some ["c@x.com"] = Some l /\ l <> [])
    /\ (forall l, dest !! "BccAddresses" = Some l <-> Some [] = Some l /\ l <> []).
Proof.
  split; [reflexivity|].
  apply (send_email_destination Stub.accepting Stub.w0 0 Stub.sender).
  reflexivity.
Defined.

Lemma send_email_body_witness :
  heap Stub.w0 !! 0 = Some Stub.sender /\
  exists (dest : gmap string (list string)) (msg body part : gmap string pyval),
    requests (send_email Stub.accepting 0 "a@x.com" ["b@x.com"] "Hi" "<p>Hi</p>"
                (Some "Hi") None None Stub.w0).2
      = requests Stub.w0 ++ [(ses_client Stub.sender, SendEmail "a@x.com" dest msg)]
    /\ msg !! "Body" = Some (VDict body)
    /\ body !! "Html" = Some (VDict part)
    /\ part !! "Data" = Some (VStr "<p>Hi</p>")
    /\ part !! "Charset" = Some (VStr "UTF-8")
    /\ (forall t, body !! "Text" = Some t ->
          exists (s : string) (tpart : gmap string pyval),
            Some "Hi" = Some s /\ t = VDict tpart
            /\ tpart !! "Data" = Some (VStr s)
            /\ tpart !! "Charset" = Some (VStr "UTF-8")).
Proof.
  split; [reflexivity|].
  apply (send_email_body Stub.accepting Stub.w0 0 Stub.sender).
  reflexivity.
Defined.

Lemma send_raw_email_parts_witness :
  heap Stub.w0 !! 0 = Some Stub.sender /\
  requests (send_raw_email Stub.accepting Stub.show_message Stub.no_header_error
              0 "a@x.com" ["b@x.com"] "Hi" "<p>Hi</p>" (Some "Hi") Stub.w0).2
  = [(ses_client Stub.sender,
      SendRawEmail "a@x.com" ["b@x.com"]
        (<["Data" := "Content-Type: multipart/alternative|MIME-Version: 1.0|Subject: Hi|From: a@x.com|To: b@x.com||plain=Hi|html=<p>Hi</p>"]> ∅))].
Proof.
  split; [reflexivity|].
  pose proof (send_raw_email_parts Stub.accepting Stub.show_message
                Stub.no_header_error Stub.w0 0 Stub.sender "a@x.com" ["b@x.com"]
                "Hi" "<p>Hi</p>" (Some "Hi") eq_refl) as Hparts.
  hnf in Hparts. exact (proj2 Hparts).
Defined.

(** C1 as stated fails: with the empty string as text body the document has
    the HTML part only, so no message with a text part and an HTML part
    serializes to what the service receives. *)
Lemma send_raw_email_empty_text_counterexample :
  requests (send_raw_email Stub.accepting Stub.show_parts Stub.no_header_error
              0 "a@x.com" ["b@x.com"] "Hi" "<p>Hi</p>" (Some "") Stub.w0).2
    = [(ses_client Stub.sender,
        SendRawEmail "a@x.com" ["b@x.com"] (<["Data" := "html"]> ∅))]
  /\
  ~ exists msg : MIMEMultipart,
      requests (send_raw_email Stub.accepting Stub.show_parts Stub.no_header_error
                  0 "a@x.com" ["b@x.com"] "Hi" "<p>Hi</p>" (Some "") Stub.w0).2
        = requests Stub.w0
          ++ [(ses_client Stub.sender,
               SendRawEmail "a@x.com" ["b@x.com"] (<["Data" := Stub.show_parts msg]> ∅))]
      /\ multi_payload msg
         = [mkMIMEText "" "plain" "utf-8"; mkMIMEText "<p>Hi</p>" "html" "utf-8"].
Proof.
  split; [reflexivity|].
  intros (msg & Hreq & Hparts).
  unfold Stub.show_parts in Hreq. rewrite Hparts in Hreq.
  vm_compute in Hreq. discriminate Hreq.
Qed.

Lemma send_raw_email_to_and_destinations_witness :
  heap Stub.w0 !! 0 = Some Stub.sender /\
  requests (send_raw_email Stub.accepting Stub.show_message Stub.no_header_error
              0 "a@x.com" ["b@x.com"; "c@x.com"] "Hi" "<p>Hi</p>" None Stub.w0).2
  = [(ses_client Stub.sender,
      SendRawEmail "a@x.com" ["b@x.com"; "c@x.com"]
        (<["Data" := "Content-Type: multipart/alternative|MIME-Version: 1.0|Subject: Hi|From: a@x.com|To: b@x.com, c@x.com||html=<p>Hi</p>"]> ∅))].
Proof.
  split; [reflexivity|].
  exact (proj2 (proj2 (send_raw_email_to_and_destinations Stub.accepting
                         Stub.show_message Stub.no_header_error Stub.w0 0
                         Stub.sender "a@x.com" ["b@x.com"; "c@x.com"] "Hi"
                         "<p>Hi</p>" None eq_refl)
                  _ eq_refl)).
Defined.

Lemma send_reply_contract_witness :
  heap Stub.w0 !! 0 = Some Stub.sender /\
  (send_email Stub.accepting 0 "a@x.com" ["b@x.com"] "Hi" "<p>Hi</p>"
     None None None Stub.w0).1 = Returned (Some Stub.receipt) /\
  (send_raw_email Stub.accepting Stub.show_message Stub.no_header_error 0 "a@x.com"
     ["b@x.com"] "Hi" "<p>Hi</p>" None Stub.w0).1 = Returned (Some Stub.receipt) /\
  (send_email Stub.rejecting 0 "a@x.com" ["b@x.com"] "Hi" "<p>Hi</p>"
     None None None Stub.w0).1 = Returned None /\
  stdout (send_raw_email Stub.rejecting Stub.show_message Stub.no_header_error 0
            "a@x.com" ["b@x.com"] "Hi" "<p>Hi</p>" None Stub.w0).2
    = ["Error sending raw email: MessageRejected"] /\
  requests (send_raw_email Stub.accepting Stub.show_message Stub.refused 0
              "a@x.com" ["b@x.com"] ("Hi" +:+ nl +:+ "Bcc: c@x.com") "<p>Hi</p>"
              None Stub.w0).2 = [].
Proof.
  split; [reflexivity|].
  destruct (send_reply_contract Stub.accepting Stub.show_message
              Stub.no_header_error Stub.w0 0 Stub.sender
              "a@x.com" ["b@x.com"] "Hi" "<p>Hi</p>" None None None eq_refl)
    as [(req1 & _ & _ & Hok1) [Hraw2 _]].
  destruct (Hraw2 _ eq_refl) as (_ & _ & Hok2).
  destruct (send_reply_contract Stub.rejecting Stub.show_message
              Stub.no_header_error Stub.w0 0 Stub.sender
              "a@x.com" ["b@x.com"] "Hi" "<p>Hi</p>" None None None eq_refl)
    as [(req3 & _ & Hko3 & _) [Hraw4 _]].
  destruct (Hraw4 _ eq_refl) as (_ & Hko4 & _).
  destruct (send_reply_contract Stub.accepting Stub.show_message Stub.refused
              Stub.w0 0 Stub.sender "a@x.com" ["b@x.com"]
              ("Hi" +:+ nl +:+ "Bcc: c@x.com") "<p>Hi</p>" None None None eq_refl)
    as [_ [_ Hrefused]].
  split; [exact (proj1 (Hok1 Stub.receipt tt eq_refl))|].
  split; [exact (proj1 (Hok2 Stub.receipt tt eq_refl))|].
  split; [exact (proj1 (Hko3 "MessageRejected" tt eq_refl))|].
  split; [exact (proj2 (Hko4 "MessageRejected" tt eq_refl))|].
  exact (proj1 (Hrefused _ eq_refl)).
Defined.

Lemma verify_email_address_contract_witness :
  heap Stub.w0 !! 0 = Some Stub.sender /\
  (verify_email_address Stub.accepting 0 "b@x.com" Stub.w0).1 = Returned true /\
  (verify_email_address Stub.rejecting 0 "b@x.com" Stub.w0).1 = Returned false.
Proof.
  split; [reflexivity|]. split.
  - apply (verify_email_address_contract Stub.accepting Stub.w0 0 Stub.sender
             "b@x.com" eq_refl).
    exists Stub.receipt. reflexivity.
  - apply (verify_email_address_contract Stub.rejecting Stub.w0 0 Stub.sender
             "b@x.com" eq_refl) with (m := "MessageRejected").
    reflexivity.
Defined.

Lemma get_send_quota_contract_witness :
  heap Stub.w0 !! 0 = Some Stub.sender /\
  (exists q, (get_send_quota Stub.quota_service 0 Stub.w0).1 = Returned (Some q)
             /\ q !! "Max24HourSend" = Some (VNum 200)
             /\ q !! "MaxSendRate" = Some (VNum 1)
             /\ q !! "SentLast24Hours" = Some (VNum 3)) /\
  (get_send_quota Stub.rejecting 0 Stub.w0).1 = Returned None.
Proof.
  split; [reflexivity|]. split.
  - exists Stub.quota. split; [|by repeat split].
    apply (get_send_quota_contract Stub.quota_service Stub.w0 0 Stub.sender eq_refl).
    reflexivity.
  - apply (get_send_quota_contract Stub.rejecting Stub.w0 0 Stub.sender eq_refl)
      with (m := "MessageRejected").
    reflexivity.
Defined.


(** C7 as stated fails: a well-formed UTF-8 file with a CR LF and a lone CR
    comes back with LF in their place, not with its exact contents. *)
Lemma load_html_template_crlf_counterexample :
  TextFile.disk "dos.html" = Returned TextFile.dos_contents
  /\ TextFile.utf8_valid TextFile.dos_contents = true
  /\ (load_html_template (TextFile.open_utf8 TextFile.disk) TextFile.file_read
        "dos.html" Stub.w0).1
     = Returned (Some ("a" +:+ nl +:+ "b" +:+ nl +:+ "c" +:+ nl))
  /\ (load_html_template (TextFile.open_utf8 TextFile.disk) TextFile.file_read
        "dos.html" Stub.w0).1
     <> Returned (Some TextFile.dos_contents).
Proof.
  split; [reflexivity|]. split; [reflexivity|]. split; [reflexivity|].
  vm_compute. discriminate.
Qed.

Lemma load_html_template_text_mode_witness :
  load_html_template (TextFile.open_utf8 TextFile.disk) TextFile.file_read
    "dos.html" Stub.w0
  = (Returned (Some ("a" +:+ nl +:+ "b" +:+ nl +:+ "c" +:+ nl)), Stub.w0)
  /\ load_html_template (TextFile.open_utf8 TextFile.disk) TextFile.file_read
       "plain.html" Stub.w0
     = (Returned (Some TextFile.plain_contents), Stub.w0)
  /\ (load_html_template (TextFile.open_utf8 TextFile.disk) TextFile.file_read
        "latin1.html" Stub.w0).1 = Returned None
  /\ stdout (load_html_template (TextFile.open_utf8 TextFile.disk)
               TextFile.file_read "missing.html" Stub.w0).2
     = ["Template file not found: missing.html"].
Proof.
  destruct (load_html_template_text_mode TextFile.disk Stub.w0 "dos.html")
    as (Hdos & _).
  destruct (load_html_template_text_mode TextFile.disk Stub.w0 "plain.html")
    as (Hplain & _).
  destruct (load_html_template_text_mode TextFile.disk Stub.w0 "latin1.html")
    as (_ & _ & _ & Hlatin).
  destruct (load_html_template_text_mode TextFile.disk Stub.w0 "missing.html")
    as (_ & Hmissing & _).
  split; [exact (proj1 (Hdos _ eq_refl eq_refl))|].
  split.
  { apply (Hplain _ eq_refl eq_refl). vm_compute. intuition discriminate. }
  split; [exact (proj1 (Hlatin _ eq_refl eq_refl))|].
  exact (proj2 (Hmissing "missing.html" eq_refl)).
Defined.

(** ** Further properties of the methods *)

Section MoreProperties.

#[local] Set Default Proof Using "Type".

Context {PS : Type}.
Variable aws : client -> api_call -> PS -> outcome (gmap string pyval) * PS.

Implicit Types (w : world PS) (self : loc) (obj : AWSEmailSender).
Implicit Types (sender subject html : string) (recipients : list string).
Implicit Types (text : option string) (cc bcc : option (list string)).

Ltac run_call Hself :=
  unfold send_email, send_raw_email, verify_email_address, get_send_quota,
    try_except, mbind, M_bind, mret, M_ret, get_ses_client, call, lift, print;
  cbn beta iota; rewrite ?Hself; cbn beta iota.

Lemma str_truthy_nonempty (s : string) : s <> "" -> str_truthy (Some s) = true.
Proof. intros Hs. simpl. by destruct (String.eqb_spec s ""). Qed.

Lemma new_loc_fresh (h : gmap loc AWSEmailSender) : h !! new_loc h = None.
Proof. apply (not_elem_of_dom (D := gset loc)). unfold new_loc. apply is_fresh. Qed.


(** X2.  A sender whose construction for a region returns makes its requests
    through an SES client of that region: the one request of the structured
    send, of the verification and of the quota query, and the one request of
    the raw send once its message is serialized. *)
Theorem constructed_sender_uses_region_client
    (as_string : MIMEMultipart -> string)
    (header_error : MIMEMultipart -> option exn)
    (client_error : string -> string -> option exn)
    w self w1 (region address : string) sender recipients subject html text cc bcc :
  AWSEmailSender_init client_error region w = (Returned self, w1) ->
  let c := {| client_service := "ses"; client_region := region |} in
  (exists dest msg,
     requests (send_email aws self sender recipients subject html text cc bcc w1).2
     = requests w ++ [(c, SendEmail sender dest msg)])
  /\ (forall data,
        msg_as_string as_string header_error
          (raw_message sender recipients subject html text) = Returned data ->
        requests (send_raw_email aws as_string header_error self sender recipients
                    subject html text w1).2
        = requests w ++ [(c, SendRawEmail sender recipients (<["Data" := data]> ∅))])
  /\ requests (verify_email_address aws self address w1).2
     = requests w ++ [(c, VerifyEmailIdentity address)]
  /\ requests (get_send_quota aws self w1).2 = requests w ++ [(c, GetSendQuota)].
Proof.
  intros Hinit c.
  assert (heap w1 !! self = Some (mkSender region c)
          /\ requests w1 = requests w) as [Hself Hreq].
  { unfold AWSEmailSender_init, new_client in Hinit.
    destruct (String.eqb region default_region);
      [|destruct (client_error "ses" region); [done|]].
    all: injection Hinit as <- <-; split; [apply lookup_insert_eq|done]. }
  split; [|split; [|split]].
  - unfold send_email.
    destruct (str_truthy text); rewrite ?setitem2_body; run_call Hself.
    all: eexists _, _; rewrite <- Hreq; by destruct (aws _ _ _) as [[r|[]] ps].
  - intros data Hdata.
    erewrite send_raw_email_unfold by exact Hself.
    rewrite Hdata, <- Hreq. cbn beta iota zeta.
    by destruct (aws _ _ _) as [[r|[]] ps].
  - run_call Hself. rewrite <- Hreq. by destruct (aws _ _ _) as [[r|[]] ps].
  - run_call Hself. rewrite <- Hreq. by destruct (aws _ _ _) as [[r|[]] ps].
Qed.

(** X3.  An exception that is not a [ClientError] leaves both sends as it
    is, and nothing is printed: one raised by the service in answer to the
    request, and in the raw send one raised by the serializer, before any
    request is made. *)
Theorem send_other_exception_escapes (as_string : MIMEMultipart -> string)
    (header_error : MIMEMultipart -> option exn)
    w self obj sender recipients subject html text cc bcc :
  heap w !! self = Some obj ->
  (exists req,
     let run := send_email aws self sender recipients subject html text cc bcc w in
     requests run.2 = requests w ++ [(ses_client obj, req)]
     /\ forall e ps, aws (ses_client obj) req (remote w) = (Raised e, ps) ->
          (forall m, e <> ClientError m) ->
          run.1 = Raised e /\ stdout run.2 = stdout w)
  /\
  (let run :=
     send_raw_email aws as_string header_error self sender recipients subject
       html text w in
   (forall data,
      msg_as_string as_string header_error
        (raw_message sender recipients subject html text) = Returned data ->
      let req := SendRawEmail sender recipients (<["Data" := data]> ∅) in
      requests run.2 = requests w ++ [(ses_client obj, req)]
      /\ forall e ps, aws (ses_client obj) req (remote w) = (Raised e, ps) ->
           (forall m, e <> ClientError m) ->
           run.1 = Raised e /\ stdout run.2 = stdout w)
   /\ (forall e,
         msg_as_string as_string header_error
           (raw_message sender recipients subject html text) = Raised e ->
         (forall m, e <> ClientError m) ->
         run = (Raised e, w))).
Proof.
  intros Hself. split.
  - unfold send_email.
    destruct (str_truthy text) eqn:Ht; rewrite ?setitem2_body;
      run_call Hself.
    all: eexists; (split; [by destruct (aws _ _ _) as [[r|[]] ps]|]).
    all: intros e ps -> He; destruct e; try done; by destruct (He msg).
  - cbv zeta. erewrite send_raw_email_unfold by exact Hself. split.
    + intros data ->. cbn beta iota zeta.
      split; [by destruct (aws _ _ _) as [[r|[]] ps]|].
      intros e ps -> He; destruct e; try done; by destruct (He msg).
    + intros e -> He. destruct e; try done; by destruct (He msg).
Qed.

(** X4.  An exception of the service that is not a [ClientError] leaves the
    verification and the quota request as it is: it is neither turned into
    [False] or [None] nor printed. *)
Theorem query_other_exception_escapes w self obj (address : string) :
  heap w !! self = Some obj ->
  (forall e ps,
     aws (ses_client obj) (VerifyEmailIdentity address) (remote w) = (Raised e, ps) ->
     (forall m, e <> ClientError m) ->
     (verify_email_address aws self address w).1 = Raised e
     /\ stdout (verify_email_address aws self address w).2 = stdout w)
  /\
  (forall e ps,
     aws (ses_client obj) GetSendQuota (remote w) = (Raised e, ps) ->
     (forall m, e <> ClientError m) ->
     (get_send_quota aws self w).1 = Raised e
     /\ stdout (get_send_quota aws self w).2 = stdout w).
Proof.
  intros Hself.
  split; intros e ps Hreply He; run_call Hself; rewrite Hreply;
    destruct e; try done; by destruct (He msg).
Qed.

(** X5.  An accepted verification request prints the one confirmation line and
    leaves the service in the state the request left it; the content of the
    response plays no part. *)
Theorem verify_email_address_accepted w self obj (address : string) r ps :
  heap w !! self = Some obj ->
  aws (ses_client obj) (VerifyEmailIdentity address) (remote w) = (Returned r, ps) ->
  verify_email_address aws self address w
  = (Returned true,
     {| stdout := stdout w ++ ["Verification email sent to " +:+ address];
        heap := heap w; remote := ps;
        requests := requests w ++ [(ses_client obj, VerifyEmailIdentity address)] |}).
Proof. intros Hself Hreply. run_call Hself. by rewrite Hreply. Qed.

(** X6.  In the structured send the message has the two entries [Subject]
    and [Body] and no other; the [Subject] entry is the dictionary with the
    subject as [Data] and UTF-8 as [Charset]; a non-empty text body is always
    carried, as the [Text] entry of the body with the text as [Data]; with an
    absent or empty text body the body has the [Html] entry only. *)
Theorem send_email_message_shape w self obj sender recipients subject html text cc bcc :
  heap w !! self = Some obj ->
  exists (dest : gmap string (list string)) (msg body : gmap string pyval),
    requests (send_email aws self sender recipients subject html text cc bcc w).2
      = requests w ++ [(ses_client obj, SendEmail sender dest msg)]
    /\ dom msg = ({["Subject"; "Body"]} : gset string)
    /\ msg !! "Subject"
       = Some (VDict (<["Data" := VStr subject]>
                        (<["Charset" := VStr "UTF-8"]> ∅)))
    /\ msg !! "Body" = Some (VDict body)
    /\ (forall s, text = Some s -> s <> "" ->
          body !! "Text"
          = Some (VDict (<["Data" := VStr s]> (<["Charset" := VStr "UTF-8"]> ∅))))
    /\ (str_truthy text = false -> dom body = ({["Html"]} : gset string)).
Proof.
  intros Hself. unfold send_email.
  destruct (str_truthy text) eqn:Ht; rewrite ?setitem2_body;
    run_call Hself.
  all: eexists _, _, _; (split; [by destruct (aws _ _ _) as [[r|[]] ps]|]).
  all: split; [by rewrite !dom_insert_L, dom_empty_L, union_empty_r_L|].
  all: split; [by simplify_map_eq|].
  all: split; [by simplify_map_eq|].
  - split; [|done]. intros s -> _. by simplify_map_eq.
  - split; [|by rewrite !dom_insert_L, dom_empty_L, union_empty_r_L].
    intros s -> Hs. by rewrite str_truthy_nonempty in Ht.
Qed.

(** *** The loader *)

Context {file : Type}.
Variable open_utf8 : string -> outcome file.
Variable file_read : file -> outcome string.

Ltac run_load :=
  unfold load_html_template, try_except, mbind, M_bind, mret, M_ret, lift, print;
  cbn beta iota.

(** X7.  The loader has three ways to end: it returns the text and changes
    nothing; or it prints one line and returns [None]; or an exception
    outside [Exception] passes through and nothing changes.  It never
    touches a sender object or the service. *)
Theorem load_html_template_outcomes w (template_path : string) :
  let run := load_html_template open_utf8 file_read template_path w in
  (exists s, run = (Returned (Some s), w))
  \/ (exists line,
        run = (Returned None,
               {| stdout := stdout w ++ [line]; heap := heap w;
                  remote := remote w; requests := requests w |}))
  \/ (exists e, is_Exception e = false /\ run = (Raised e, w)).
Proof.
  run_load.
  destruct (open_utf8 template_path) as [f|e]; cbn beta iota.
  - destruct (file_read f) as [s|e]; cbn beta iota; [by left; eauto|].
    destruct e; cbn;
      first [by right; left; eexists
            | right; right; eexists; split; [|reflexivity]; reflexivity].
  - destruct e; cbn;
      first [by right; left; eexists
            | right; right; eexists; split; [|reflexivity]; reflexivity].
Qed.

(** X8.  An exception outside [Exception], raised while opening or reading, is
    not caught by the loader, and nothing is printed. *)
Theorem load_html_template_interrupt_escapes w (template_path : string) e :
  is_Exception e = false ->
  open_utf8 template_path = Raised e
  \/ (exists f, open_utf8 template_path = Returned f /\ file_read f = Raised e) ->
  load_html_template open_utf8 file_read template_path w = (Raised e, w).
Proof.
  intros He Hraise. run_load.
  destruct Hraise as [->|(f & -> & ->)]; by destruct e.
Qed.

End MoreProperties.

(** ** Properties of the entry point *)

Section ScriptProperties.

#[local] Set Default Proof Using "Type".

Context {PS file : Type}.
Variable aws : client -> api_call -> PS -> outcome (gmap string pyval) * PS.
Variable as_string : MIMEMultipart -> string.
Variable header_error : MIMEMultipart -> option exn.
Variable client_error : string -> string -> option exn.
Variable open_utf8 : string -> outcome file.
Variable file_read : file -> outcome string.
Variable sts_get_caller_identity : PS -> outcome (gmap string pyval) * PS.
Variable format_value : pyval -> string.

Implicit Types (w : world PS) (self : loc).

(** *** Running a sequence step by step *)

Lemma bind_returned {A B} (m : M PS A) (k : A -> M PS B) w a w' :
  m w = (Returned a, w') -> (m ≫= k) w = k a w'.
Proof. intros Hm. unfold mbind, M_bind. by rewrite Hm. Qed.

Lemma bind_raised {A B} (m : M PS A) (k : A -> M PS B) w e w' :
  m w = (Raised e, w') -> (m ≫= k) w = (Raised e, w').
Proof. intros Hm. unfold mbind, M_bind. by rewrite Hm. Qed.

Lemma load_run_ok w (path : string) f s :
  open_utf8 path = Returned f -> file_read f = Returned s ->
  load_html_template open_utf8 file_read path w = (Returned (Some s), w).
Proof.
  intros Hopen Hread.
  unfold load_html_template, try_except, mbind, M_bind, mret, M_ret, lift.
  by rewrite Hopen, Hread.
Qed.

Lemma load_run_fail (path : string) e :
  is_Exception e = true ->
  open_utf8 path = Raised e
  \/ (exists f, open_utf8 path = Returned f /\ file_read f = Raised e) ->
  exists line, forall w,
    load_html_template open_utf8 file_read path w
    = (Returned None,
       {| stdout := stdout w ++ [line]; heap := heap w;
          remote := remote w; requests := requests w |}).
Proof.
  intros He Hraise.
  unfold load_html_template, try_except, mbind, M_bind, mret, M_ret, lift, print.
  destruct Hraise as [->|(f & -> & ->)]; destruct e; try done; by eexists.
Qed.

(** The send of [main], by the reply of the service: the headers of its
    message are printable, so the serializer returns. *)
Lemma main_send_run w self (html : string) reply :
  heap w !! self = Some (mkSender AWS_REGION main_client) ->
  aws main_client (main_request as_string html) (remote w) = reply ->
  send_raw_email aws as_string header_error self SENDER_EMAIL RECIPIENT_EMAILS
    EMAIL_SUBJECT html (Some text_content) w
  = let sent out ps :=
      {| stdout := out; heap := heap w; remote := ps;
         requests := requests w ++ [(main_client, main_request as_string html)] |} in
    match reply with
    | (Returned r, ps) => (Returned (Some r), sent (stdout w) ps)
    | (Raised (ClientError m), ps) =>
        (Returned None, sent (stdout w ++ ["Error sending raw email: " +:+ m]) ps)
    | (Raised e, ps) => (Raised e, sent (stdout w) ps)
    end.
Proof.
  intros Hself <-.
  erewrite send_raw_email_unfold by exact Hself.
  replace (msg_as_string as_string header_error
             (raw_message SENDER_EMAIL RECIPIENT_EMAILS EMAIL_SUBJECT html
                (Some text_content)))
    with (Returned (as_string (main_message html)) : outcome string)
    by reflexivity.
  reflexivity.
Qed.

(** The quota request, by the reply of the service. *)
Lemma get_send_quota_run w self obj reply :
  heap w !! self = Some obj ->
  aws (ses_client obj) GetSendQuota (remote w) = reply ->
  get_send_quota aws self w
  = let asked out ps :=
      {| stdout := out; heap := heap w; remote := ps;
         requests := requests w ++ [(ses_client obj, GetSendQuota)] |} in
    match reply with
    | (Returned r, ps) => (Returned (Some r), asked (stdout w) ps)
    | (Raised (ClientError m), ps) =>
        (Returned None, asked (stdout w ++ ["Error getting send quota: " +:+ m]) ps)
    | (Raised e, ps) => (Raised e, asked (stdout w) ps)
    end.
Proof.
  intros Hself <-.
  unfold get_send_quota, try_except, mbind, M_bind, mret, M_ret,
    get_ses_client, call, print.
  rewrite Hself. cbn.
  by destruct (aws _ _ _) as [[r|[]] ps].
Qed.

Lemma dict_truthy_lookup (d : gmap string pyval) (k : string) v :
  d !! k = Some v -> dict_truthy (Some d) = true.
Proof.
  intros Hk. simpl. destruct (Nat.eqb_spec (size d) 0) as [Hsize|]; [|done].
  apply map_size_empty_iff in Hsize. by rewrite Hsize in Hk.
Qed.

Lemma dict_truthy_nonempty (d : gmap string pyval) :
  d <> ∅ -> dict_truthy (Some d) = true.
Proof.
  intros Hd. simpl. destruct (Nat.eqb_spec (size d) 0) as [Hsize|]; [|done].
  by apply map_size_empty_iff in Hsize.
Qed.

Lemma text_content_nonempty : text_content <> "".
Proof. done. Qed.

Ltac tidy :=
  cbn [stdout heap remote requests negb default from_option id fst snd].

(** Runs the next step of a sequence with the given equation. *)
Tactic Notation "step_by" tactic3(tac) :=
  erewrite bind_returned by tac; cbn beta; tidy.
Ltac step := step_by reflexivity.

(** Runs [main] up to the send. *)
Ltac start_main Hopen Hread Hhtml :=
  unfold main;
  step; step; step_by (by apply (load_run_ok _ _ _ _ Hopen Hread));
  rewrite (str_truthy_nonempty _ Hhtml); tidy;
  step; step.

(** The equation of the send of [main], from the reply [Hsend]. *)
Ltac main_send Hsend :=
  eapply eq_trans;
  [ eapply main_send_run; [ apply lookup_insert_eq | exact Hsend ]
  | reflexivity ].

(** The equation of the quota request of [main], from the reply [Hquota]. *)
Ltac main_quota Hquota :=
  eapply eq_trans;
  [ eapply get_send_quota_run; [ apply lookup_insert_eq | exact Hquota ]
  | reflexivity ].

Ltac getitem_step H :=
  step_by (unfold lift, getitem; rewrite H; reflexivity).

Ltac finish := unfold print; tidy; rewrite <- ?app_assoc; reflexivity.

(** *** [main] *)

(** X9.  When the template cannot be used -- opening or reading it raises an
    [Exception], or the file is empty -- [main] says so and returns without
    a single request to the service. *)
Theorem main_template_unusable w :
  (exists e, is_Exception e = true
     /\ (open_utf8 TEMPLATE_PATH = Raised e
         \/ exists f, open_utf8 TEMPLATE_PATH = Returned f /\ file_read f = Raised e))
  \/ (exists f, open_utf8 TEMPLATE_PATH = Returned f /\ file_read f = Returned "") ->
  exists lines,
    length lines <= 1
    /\ main aws as_string header_error client_error open_utf8 file_read
    format_value w
       = (Returned tt,
          {| stdout := stdout w ++ ["Loading HTML template..."] ++ lines
                       ++ ["Failed to load template. Exiting."];
             heap := <[new_loc (heap w) := mkSender AWS_REGION main_client]> (heap w);
             remote := remote w;
             requests := requests w |}).
Proof.
  intros [(e & He & Hraise)|(f & Hopen & Hread)].
  - destruct (load_run_fail TEMPLATE_PATH e He Hraise) as [line Hline].
    exists [line]. split; [done|]. unfold main. step. step.
    step_by (apply Hline).
    cbn [str_truthy negb]. finish.
  - exists []. split; [simpl; lia|]. unfold main. step. step.
    step_by (by apply (load_run_ok _ _ _ _ Hopen Hread)).
    cbn [str_truthy negb String.eqb]. finish.
Qed.

(** X10.  When the service rejects the send with a [ClientError], [main] reports
    the failure and returns; the send is its only request, so the quota is
    not asked for. *)
Theorem main_send_rejected w f (html m : string) ps :
  open_utf8 TEMPLATE_PATH = Returned f ->
  file_read f = Returned html ->
  html <> "" ->
  aws main_client (main_request as_string html) (remote w)
    = (Raised (ClientError m), ps) ->
  main aws as_string header_error client_error open_utf8 file_read
    format_value w
  = (Returned tt,
     {| stdout := stdout w
          ++ ["Loading HTML template..."; "Template loaded successfully!";
              "Sending email via AWS SES...";
              "Error sending raw email: " +:+ m;
              "❌ Failed to send email"];
        heap := <[new_loc (heap w) := mkSender AWS_REGION main_client]> (heap w);
        remote := ps;
        requests := requests w ++ [(main_client, main_request as_string html)] |}).
Proof.
  intros Hopen Hread Hhtml Hsend.
  start_main Hopen Hread Hhtml.
  step_by (main_send Hsend).
  cbn [dict_truthy]. finish.
Qed.

(** X11.  When the send is accepted with a message id and the quota request is
    answered with the three quota entries, [main] prints the id and the
    quota, having made exactly these two requests, the second to the
    service as the first left it. *)
Theorem main_sent_with_quota w f (html : string) r ps q ps' id ceiling rate sent :
  open_utf8 TEMPLATE_PATH = Returned f ->
  file_read f = Returned html ->
  html <> "" ->
  aws main_client (main_request as_string html) (remote w) = (Returned r, ps) ->
  r !! "MessageId" = Some id ->
  aws main_client GetSendQuota ps = (Returned q, ps') ->
  q !! "Max24HourSend" = Some ceiling ->
  q !! "MaxSendRate" = Some rate ->
  q !! "SentLast24Hours" = Some sent ->
  main aws as_string header_error client_error open_utf8 file_read
    format_value w
  = (Returned tt,
     {| stdout := stdout w
          ++ ["Loading HTML template..."; "Template loaded successfully!";
              "Sending email via AWS SES...";
              "✅ Email sent successfully!";
              "Message ID: " +:+ fstr format_value id;
              nl +:+ "Sending Quota Information:";
              "Max 24 Hour Send: " +:+ fstr format_value ceiling;
              "Max Send Rate: " +:+ fstr format_value rate +:+ " emails/second";
              "Sent Last 24 Hours: " +:+ fstr format_value sent];
        heap := <[new_loc (heap w) := mkSender AWS_REGION main_client]> (heap w);
        remote := ps';
        requests := requests w
          ++ [(main_client, main_request as_string html);
              (main_client, GetSendQuota)] |}).
Proof.
  intros Hopen Hread Hhtml Hsend Hid Hquota Hceiling Hrate Hsent.
  start_main Hopen Hread Hhtml.
  step_by (main_send Hsend).
  rewrite (dict_truthy_lookup _ _ _ Hid).
  step. getitem_step Hid. step.
  step_by (main_quota Hquota).
  rewrite (dict_truthy_lookup _ _ _ Hceiling).
  step. getitem_step Hceiling. step. getitem_step Hrate. step.
  getitem_step Hsent.
  finish.
Qed.

(** X12.  When the send is accepted but the quota request is rejected with a
    [ClientError], [main] still returns normally: it has printed the id and
    the quota error, and no quota line. *)
Theorem main_sent_quota_rejected w f (html : string) r ps id (m : string) ps' :
  open_utf8 TEMPLATE_PATH = Returned f ->
  file_read f = Returned html ->
  html <> "" ->
  aws main_client (main_request as_string html) (remote w) = (Returned r, ps) ->
  r !! "MessageId" = Some id ->
  aws main_client GetSendQuota ps = (Raised (ClientError m), ps') ->
  main aws as_string header_error client_error open_utf8 file_read
    format_value w
  = (Returned tt,
     {| stdout := stdout w
          ++ ["Loading HTML template..."; "Template loaded successfully!";
              "Sending email via AWS SES...";
              "✅ Email sent successfully!";
              "Message ID: " +:+ fstr format_value id;
              "Error getting send quota: " +:+ m];
        heap := <[new_loc (heap w) := mkSender AWS_REGION main_client]> (heap w);
        remote := ps';
        requests := requests w
          ++ [(main_client, main_request as_string html);
              (main_client, GetSendQuota)] |}).
Proof.
  intros Hopen Hread Hhtml Hsend Hid Hquota.
  start_main Hopen Hread Hhtml.
  step_by (main_send Hsend).
  rewrite (dict_truthy_lookup _ _ _ Hid).
  step. getitem_step Hid. step.
  step_by (main_quota Hquota).
  cbn [dict_truthy]. unfold mret, M_ret. finish.
Qed.

(** X13.  When the response to the send is a non-empty dictionary without a
    [MessageId], [main] raises [KeyError] after the success line: the mail
    is sent, the quota is not asked for. *)
Theorem main_missing_message_id w f (html : string) r ps :
  open_utf8 TEMPLATE_PATH = Returned f ->
  file_read f = Returned html ->
  html <> "" ->
  aws main_client (main_request as_string html) (remote w) = (Returned r, ps) ->
  r <> ∅ ->
  r !! "MessageId" = None ->
  main aws as_string header_error client_error open_utf8 file_read
    format_value w
  = (Raised (OtherException "KeyError" "'MessageId'"),
     {| stdout := stdout w
          ++ ["Loading HTML template..."; "Template loaded successfully!";
              "Sending email via AWS SES...";
              "✅ Email sent successfully!"];
        heap := <[new_loc (heap w) := mkSender AWS_REGION main_client]> (heap w);
        remote := ps;
        requests := requests w ++ [(main_client, main_request as_string html)] |}).
Proof.
  intros Hopen Hread Hhtml Hsend Hne Hid.
  start_main Hopen Hread Hhtml.
  step_by (main_send Hsend).
  rewrite (dict_truthy_nonempty _ Hne).
  step.
  erewrite bind_raised
    by (unfold lift, getitem; rewrite Hid; reflexivity).
  finish.
Qed.

(** X14.  When the service answers the send with the empty dictionary, [main]
    takes the accepted send for a failure: the test is [if response:]. *)
Theorem main_empty_response w f (html : string) ps :
  open_utf8 TEMPLATE_PATH = Returned f ->
  file_read f = Returned html ->
  html <> "" ->
  aws main_client (main_request as_string html) (remote w) = (Returned ∅, ps) ->
  main aws as_string header_error client_error open_utf8 file_read
    format_value w
  = (Returned tt,
     {| stdout := stdout w
          ++ ["Loading HTML template..."; "Template loaded successfully!";
              "Sending email via AWS SES...";
              "❌ Failed to send email"];
        heap := <[new_loc (heap w) := mkSender AWS_REGION main_client]> (heap w);
        remote := ps;
        requests := requests w ++ [(main_client, main_request as_string html)] |}).
Proof.
  intros Hopen Hread Hhtml Hsend.
  start_main Hopen Hread Hhtml.
  step_by (main_send Hsend).
  replace (dict_truthy (Some ∅)) with false by done.
  finish.
Qed.

(** *** What [main] does to the sender objects *)

Lemma bind_heap {A B} (m : M PS A) (k : A -> M PS B) :
  (forall w, heap (m w).2 = heap w) ->
  (forall a w, heap (k a w).2 = heap w) ->
  forall w, heap ((m ≫= k) w).2 = heap w.
Proof.
  intros Hm Hk w. unfold mbind, M_bind. specialize (Hm w).
  destruct (m w) as [[a|e] w']; simpl in *; [by rewrite Hk|done].
Qed.

Lemma print_heap (line : string) w : heap (print line w).2 = heap w.
Proof. done. Qed.

Lemma lift_heap {A} (o : outcome A) w : heap (lift o w).2 = heap w.
Proof. done. Qed.

Lemma load_heap (path : string) w :
  heap (load_html_template open_utf8 file_read path w).2 = heap w.
Proof.
  unfold load_html_template, try_except, mbind, M_bind, mret, M_ret, lift, print.
  destruct (open_utf8 path) as [f|e]; [destruct (file_read f) as [s|e]|];
    [done|by destruct e..].
Qed.

Lemma send_raw_email_heap self (sender subject html : string)
    (recipients : list string) (text : option string) w :
  heap (send_raw_email aws as_string header_error self sender recipients subject
          html text w).2
  = heap w.
Proof.
  unfold send_raw_email, try_except, mbind, M_bind, mret, M_ret,
    get_ses_client, call, lift, print.
  destruct (heap w !! self); [|done]. cbn beta iota.
  destruct (msg_as_string _ _ _) as [data|[]]; cbn beta iota; try done.
  by destruct (aws _ _ _) as [[r|[]] ps].
Qed.

Lemma get_send_quota_heap self w : heap (get_send_quota aws self w).2 = heap w.
Proof.
  unfold get_send_quota, try_except, mbind, M_bind, mret, M_ret,
    get_ses_client, call, print.
  destruct (heap w !! self); [|done].
  by destruct (aws _ _ _) as [[r|[]] ps].
Qed.

(** Closes a goal [forall w, heap (m w).2 = heap w] along the shape of [m]. *)
Ltac keeps_heap :=
  first
    [ apply print_heap | apply lift_heap | apply load_heap
    | apply send_raw_email_heap | apply get_send_quota_heap
    | by intros ?
    | apply bind_heap; [keeps_heap | intros ?; keeps_heap]
    | match goal with
      | |- context [if ?b then _ else _] => destruct b
      end; keeps_heap ].

(** X15.  Whatever the file system and the service do, [main] ends with exactly
    one more sender object than it started with -- the one it constructs
    for [us-east-1], at an address that was free -- and with every other
    object as it was. *)
Theorem main_heap w :
  heap w !! new_loc (heap w) = None
  /\ heap (main aws as_string header_error client_error open_utf8 file_read
             format_value w).2
     = <[new_loc (heap w) := mkSender AWS_REGION main_client]> (heap w).
Proof.
  split; [apply new_loc_fresh|].
  unfold main. step.
  match goal with
  | |- heap (?rest ?w1).2 = _ =>
      transitivity (heap w1); [generalize w1|reflexivity]
  end.
  keeps_heap.
Qed.

(** *** The script block *)

Local Abbreviation script :=
  (run_as_script aws as_string header_error client_error open_utf8 file_read
     sts_get_caller_identity format_value).

(** What the handler of the script prints for the exception [e]. *)
Local Abbreviation report e :=
  (("AWS credentials not configured or invalid: " +:+ exn_str e) :: guidance).

(** X16.  The script never ends with an [Exception]: whatever the identity check
    or [main] raise inside the class is caught; only an exception outside
    [Exception] can leave it. *)
Theorem run_as_script_catches_every_Exception w :
  match (script w).1 with
  | Returned _ => True
  | Raised e => is_Exception e = false
  end.
Proof.
  unfold run_as_script, try_except.
  match goal with
  | |- context [match ?body w with _ => _ end] =>
      destruct (body w) as [[[]|e] w']
  end; [done|].
  by destruct (is_Exception e) eqn:He.
Qed.

(** X17.  When the identity check raises an [Exception], the script prints the
    credentials message and the guidance and ends normally; [main] does not
    run: no sender object is made and no request is sent. *)
Theorem run_as_script_identity_failure w e ps :
  sts_get_caller_identity (remote w) = (Raised e, ps) ->
  is_Exception e = true ->
  script w
  = (Returned tt,
     {| stdout := stdout w ++ report e;
        heap := heap w; remote := ps; requests := requests w |}).
Proof.
  intros Hsts He. unfold run_as_script, try_except.
  erewrite bind_raised by (unfold caller_identity; rewrite Hsts; reflexivity).
  rewrite He. unfold guidance, foldr.
  do 9 step. unfold mret, M_ret. rewrite <- ?app_assoc. reflexivity.
Qed.

(** X18.  When the identity check answers with an account and an ARN, the script
    prints three lines -- the third, labelled as the region, shows the
    account -- and runs [main]: it ends as [main] ends, except that an
    [Exception] out of [main] is turned into the credentials message and
    the guidance, and a normal end. *)
Theorem run_as_script_after_identity w identity ps account arn :
  sts_get_caller_identity (remote w) = (Returned identity, ps) ->
  identity !! "Account" = Some account ->
  identity !! "Arn" = Some arn ->
  let w1 :=
    {| stdout := stdout w
         ++ ["AWS Account: " +:+ fstr format_value account;
             "AWS User/Role: " +:+ fstr format_value arn;
             "AWS Region: " +:+ fstr format_value account];
       heap := heap w; remote := ps; requests := requests w |} in
  script w
  = match main aws as_string header_error client_error open_utf8 file_read
    format_value w1 with
    | (Returned u, w2) => (Returned u, w2)
    | (Raised e, w2) =>
        if is_Exception e
        then (Returned tt,
              {| stdout := stdout w2 ++ report e;
                 heap := heap w2; remote := remote w2; requests := requests w2 |})
        else (Raised e, w2)
    end.
Proof.
  intros Hsts Haccount Harn w1. unfold run_as_script, try_except.
  step_by (unfold caller_identity; rewrite Hsts; reflexivity).
  getitem_step Haccount. step. getitem_step Harn. step.
  getitem_step Haccount. step.
  rewrite <- !app_assoc. cbn [app]. fold w1.
  destruct (main _ _ _ _ _ _ _ w1) as [[[]|e] w2]; [done|].
  destruct (is_Exception e); [|done].
  unfold guidance, foldr.
  do 9 step. unfold mret, M_ret. rewrite <- ?app_assoc. reflexivity.
Qed.

End ScriptProperties.

(** ** The further properties on the stand-in collaborators *)

Lemma constructed_sender_uses_region_client_witness :
  AWSEmailSender_init Stub.no_client_error "eu-west-1" ScriptStub.w0
  = (Returned 0,
     {| stdout := [];
        heap := {[ 0 := mkSender "eu-west-1" (mkClient "ses" "eu-west-1") ]};
        remote := tt; requests := [] |}) /\
  requests (send_raw_email Stub.accepting Stub.show_message Stub.no_header_error 0
              "a@x.com" ["b@x.com"] "Hi" "<p>Hi</p>" None
              (AWSEmailSender_init Stub.no_client_error "eu-west-1" ScriptStub.w0).2).2
  = [(mkClient "ses" "eu-west-1",
      SendRawEmail "a@x.com" ["b@x.com"]
        (<["Data" := "Content-Type: multipart/alternative|MIME-Version: 1.0|Subject: Hi|From: a@x.com|To: b@x.com||html=<p>Hi</p>"]> ∅))] /\
  requests (get_send_quota Stub.accepting 0
              (AWSEmailSender_init Stub.no_client_error "eu-west-1" ScriptStub.w0).2).2
  = [(mkClient "ses" "eu-west-1", GetSendQuota)].
Proof.
  split; [reflexivity|].
  destruct (constructed_sender_uses_region_client Stub.accepting Stub.show_message
              Stub.no_header_error Stub.no_client_error ScriptStub.w0 0
              (AWSEmailSender_init Stub.no_client_error "eu-west-1" ScriptStub.w0).2
              "eu-west-1" "b@x.com" "a@x.com" ["b@x.com"] "Hi" "<p>Hi</p>"
              None None None eq_refl)
    as (_ & Hraw & _ & Hquota).
  split; [exact (Hraw _ eq_refl)|exact Hquota].
Defined.

Lemma send_other_exception_escapes_witness :
  heap Stub.w0 !! 0 = Some Stub.sender /\
  (send_email ScriptStub.ses_unreachable 0 "a@x.com" ["b@x.com"] "Hi" "<p>Hi</p>"
     None None None Stub.w0).1
    = Raised (OtherException "EndpointConnectionError" "Could not connect") /\
  stdout (send_raw_email ScriptStub.ses_unreachable Stub.show_message
            Stub.no_header_error 0 "a@x.com" ["b@x.com"] "Hi" "<p>Hi</p>" None
            Stub.w0).2 = [] /\
  send_raw_email Stub.accepting Stub.show_message Stub.refused 0 "a@x.com"
    ["b@x.com"] ("Hi" +:+ nl +:+ "Bcc: c@x.com") "<p>Hi</p>" None Stub.w0
  = (Raised (OtherException "HeaderParseError"
               "header value appears to contain an embedded header"),
     Stub.w0).
Proof.
  split; [reflexivity|].
  destruct (send_other_exception_escapes ScriptStub.ses_unreachable
              Stub.show_message Stub.no_header_error
              Stub.w0 0 Stub.sender "a@x.com" ["b@x.com"] "Hi" "<p>Hi</p>"
              None None None eq_refl)
    as [(req1 & _ & Hs) [Hr _]].
  destruct (send_other_exception_escapes Stub.accepting Stub.show_message
              Stub.refused Stub.w0 0 Stub.sender "a@x.com" ["b@x.com"]
              ("Hi" +:+ nl +:+ "Bcc: c@x.com") "<p>Hi</p>" None None None eq_refl)
    as [_ [_ Hrefused]].
  split; [|split].
  - apply (Hs _ tt); [reflexivity|intros m; discriminate].
  - destruct (Hr _ eq_refl) as [_ Hr'].
    apply (Hr' (OtherException "EndpointConnectionError" "Could not connect") tt);
      [reflexivity|intros m; discriminate].
  - apply Hrefused; [reflexivity|intros m; discriminate].
Defined.

Lemma query_other_exception_escapes_witness :
  heap Stub.w0 !! 0 = Some Stub.sender /\
  (verify_email_address ScriptStub.ses_unreachable 0 "b@x.com" Stub.w0).1
    = Raised (OtherException "EndpointConnectionError" "Could not connect") /\
  (get_send_quota ScriptStub.ses_unreachable 0 Stub.w0).1
    = Raised (OtherException "EndpointConnectionError" "Could not connect").
Proof.
  split; [reflexivity|].
  destruct (query_other_exception_escapes ScriptStub.ses_unreachable
              Stub.w0 0 Stub.sender "b@x.com" eq_refl) as [Hv Hq].
  split.
  - apply (Hv _ tt); [reflexivity|intros m; discriminate].
  - apply (Hq _ tt); [reflexivity|intros m; discriminate].
Defined.

Lemma verify_email_address_accepted_witness :
  heap Stub.w0 !! 0 = Some Stub.sender /\
  verify_email_address Stub.accepting 0 "b@x.com" Stub.w0
  = (Returned true,
     {| stdout := ["Verification email sent to b@x.com"];
        heap := heap Stub.w0; remote := tt;
        requests := [(ses_client Stub.sender, VerifyEmailIdentity "b@x.com")] |}).
Proof.
  split; [reflexivity|].
  apply (verify_email_address_accepted Stub.accepting Stub.w0 0 Stub.sender
           "b@x.com" Stub.receipt tt); reflexivity.
Defined.

Lemma send_email_message_shape_witness :
  heap Stub.w0 !! 0 = Some Stub.sender /\
  exists (dest : gmap string (list string)) (msg body : gmap string pyval),
    requests (send_email Stub.accepting 0 "a@x.com" ["b@x.com"] "Hi" "<p>Hi</p>"
                (Some "Hi") None None Stub.w0).2
      = requests Stub.w0 ++ [(ses_client Stub.sender, SendEmail "a@x.com" dest msg)]
    /\ dom msg = ({["Subject"; "Body"]} : gset string)
    /\ msg !! "Subject"
       = Some (VDict (<["Data" := VStr "Hi"]> (<["Charset" := VStr "UTF-8"]> ∅)))
    /\ msg !! "Body" = Some (VDict body)
    /\ (forall s, Some "Hi" = Some s -> s <> "" ->
          body !! "Text"
          = Some (VDict (<["Data" := VStr s]> (<["Charset" := VStr "UTF-8"]> ∅))))
    /\ (str_truthy (Some "Hi") = false -> dom body = ({["Html"]} : gset string)).
Proof.
  split; [reflexivity|].
  apply (send_email_message_shape Stub.accepting Stub.w0 0 Stub.sender).
  reflexivity.
Defined.

Lemma load_html_template_interrupt_escapes_witness :
  load_html_template ScriptStub.open_interrupted Stub.file_read "template.html"
    ScriptStub.w0
  = (Raised (BaseExceptionOnly "KeyboardInterrupt" ""), ScriptStub.w0).
Proof.
  apply load_html_template_interrupt_escapes; [reflexivity|].
  left. reflexivity.
Defined.

(** On the entry point the serializer and the client factory stand-ins are
    the refusing ones: the headers of [main] are printable and its region is
    [us-east-1], so neither is asked. *)
Lemma main_template_unusable_witness :
  exists lines,
    length lines <= 1
    /\ main ScriptStub.ses Stub.show_parts
      Stub.refused Stub.bad_region ScriptStub.open_empty Stub.file_read
         ScriptStub.format_value ScriptStub.w0
       = (Returned tt,
          {| stdout := ["Loading HTML template..."] ++ lines
                       ++ ["Failed to load template. Exiting."];
             heap := <[new_loc ∅ := mkSender AWS_REGION main_client]> ∅;
             remote := tt;
             requests := [] |}).
Proof.
  apply (main_template_unusable ScriptStub.ses Stub.show_parts
      Stub.refused Stub.bad_region ScriptStub.open_empty
           Stub.file_read ScriptStub.format_value ScriptStub.w0).
  right. exists "". split; reflexivity.
Defined.

Lemma main_send_rejected_witness :
  main Stub.rejecting Stub.show_parts
      Stub.refused Stub.bad_region Stub.open_utf8 Stub.file_read
    ScriptStub.format_value ScriptStub.w0
  = (Returned tt,
     {| stdout := ["Loading HTML template..."; "Template loaded successfully!";
                   "Sending email via AWS SES...";
                   "Error sending raw email: MessageRejected";
                   "❌ Failed to send email"];
        heap := <[new_loc ∅ := mkSender AWS_REGION main_client]> ∅;
        remote := tt;
        requests := [(main_client, main_request Stub.show_parts "<p>Hi</p>")] |}).
Proof.
  apply (main_send_rejected Stub.rejecting Stub.show_parts
      Stub.refused Stub.bad_region Stub.open_utf8
           Stub.file_read ScriptStub.format_value ScriptStub.w0
           "<p>Hi</p>" "<p>Hi</p>" "MessageRejected" tt);
    [reflexivity|reflexivity|discriminate|reflexivity].
Defined.

Lemma main_sent_with_quota_witness :
  stdout (main ScriptStub.ses Stub.show_parts
      Stub.refused Stub.bad_region Stub.open_utf8 Stub.file_read
            ScriptStub.format_value ScriptStub.w0).2
  = ["Loading HTML template..."; "Template loaded successfully!";
     "Sending email via AWS SES..."; "✅ Email sent successfully!";
     "Message ID: msg-1";
     nl +:+ "Sending Quota Information:";
     "Max 24 Hour Send: <number>";
     "Max Send Rate: <number> emails/second";
     "Sent Last 24 Hours: <number>"].
Proof.
  rewrite (main_sent_with_quota ScriptStub.ses Stub.show_parts
      Stub.refused Stub.bad_region Stub.open_utf8
             Stub.file_read ScriptStub.format_value ScriptStub.w0
             "<p>Hi</p>" "<p>Hi</p>" Stub.receipt tt Stub.quota tt
             (VStr "msg-1") (VNum 200) (VNum 1) (VNum 3)
             eq_refl eq_refl ltac:(discriminate) eq_refl eq_refl eq_refl
             eq_refl eq_refl eq_refl).
  reflexivity.
Defined.

Lemma main_sent_quota_rejected_witness :
  main ScriptStub.ses_no_quota Stub.show_parts
      Stub.refused Stub.bad_region Stub.open_utf8 Stub.file_read
    ScriptStub.format_value ScriptStub.w0
  = (Returned tt,
     {| stdout := ["Loading HTML template..."; "Template loaded successfully!";
                   "Sending email via AWS SES..."; "✅ Email sent successfully!";
                   "Message ID: msg-1"; "Error getting send quota: Throttling"];
        heap := <[new_loc ∅ := mkSender AWS_REGION main_client]> ∅;
        remote := tt;
        requests := [(main_client, main_request Stub.show_parts "<p>Hi</p>");
                     (main_client, GetSendQuota)] |}).
Proof.
  apply (main_sent_quota_rejected ScriptStub.ses_no_quota Stub.show_parts
      Stub.refused Stub.bad_region
           Stub.open_utf8 Stub.file_read ScriptStub.format_value ScriptStub.w0
           "<p>Hi</p>" "<p>Hi</p>" Stub.receipt tt (VStr "msg-1") "Throttling" tt);
    [reflexivity|reflexivity|discriminate|reflexivity|reflexivity|reflexivity].
Defined.

Lemma main_missing_message_id_witness :
  (main ScriptStub.ses_no_id Stub.show_parts
      Stub.refused Stub.bad_region Stub.open_utf8 Stub.file_read
     ScriptStub.format_value ScriptStub.w0).1
  = Raised (OtherException "KeyError" "'MessageId'").
Proof.
  rewrite (main_missing_message_id ScriptStub.ses_no_id Stub.show_parts
      Stub.refused Stub.bad_region
             Stub.open_utf8 Stub.file_read ScriptStub.format_value ScriptStub.w0
             "<p>Hi</p>" "<p>Hi</p>" (<["ResponseMetadata" := VDict ∅]> ∅) tt
             eq_refl eq_refl ltac:(discriminate) eq_refl
             ltac:(apply insert_non_empty) eq_refl).
  reflexivity.
Defined.

Lemma main_empty_response_witness :
  stdout (main ScriptStub.ses_empty Stub.show_parts
      Stub.refused Stub.bad_region Stub.open_utf8 Stub.file_read
            ScriptStub.format_value ScriptStub.w0).2
  = ["Loading HTML template..."; "Template loaded successfully!";
     "Sending email via AWS SES..."; "❌ Failed to send email"].
Proof.
  rewrite (main_empty_response ScriptStub.ses_empty Stub.show_parts
      Stub.refused Stub.bad_region
             Stub.open_utf8 Stub.file_read ScriptStub.format_value ScriptStub.w0
             "<p>Hi</p>" "<p>Hi</p>" tt
             eq_refl eq_refl ltac:(discriminate) eq_refl).
  reflexivity.
Defined.

Lemma run_as_script_identity_failure_witness :
  run_as_script ScriptStub.ses Stub.show_parts
      Stub.refused Stub.bad_region Stub.open_utf8 Stub.file_read
    ScriptStub.sts_no_credentials ScriptStub.format_value ScriptStub.w0
  = (Returned tt,
     {| stdout :=
          "AWS credentials not configured or invalid: Unable to locate credentials"
          :: guidance;
        heap := ∅; remote := tt; requests := [] |}).
Proof.
  apply (run_as_script_identity_failure ScriptStub.ses Stub.show_parts
      Stub.refused Stub.bad_region
           Stub.open_utf8 Stub.file_read ScriptStub.sts_no_credentials
           ScriptStub.format_value ScriptStub.w0
           (OtherException "NoCredentialsError" "Unable to locate credentials") tt);
    reflexivity.
Defined.

Lemma run_as_script_after_identity_witness :
  stdout (run_as_script ScriptStub.ses_no_id Stub.show_parts
      Stub.refused Stub.bad_region Stub.open_utf8
            Stub.file_read ScriptStub.sts_ok ScriptStub.format_value
            ScriptStub.w0).2
  = ["AWS Account: 123456789012";
     "AWS User/Role: arn:aws:iam::123456789012:user/dev";
     "AWS Region: 123456789012";
     "Loading HTML template..."; "Template loaded successfully!";
     "Sending email via AWS SES..."; "✅ Email sent successfully!";
     "AWS credentials not configured or invalid: 'MessageId'"] ++ guidance.
Proof.
  rewrite (run_as_script_after_identity ScriptStub.ses_no_id Stub.show_parts
      Stub.refused Stub.bad_region
             Stub.open_utf8 Stub.file_read ScriptStub.sts_ok
             ScriptStub.format_value ScriptStub.w0 ScriptStub.identity tt
             (VStr "123456789012") (VStr "arn:aws:iam::123456789012:user/dev")
             eq_refl eq_refl eq_refl).
  reflexivity.
Defined.
